(** * gltf-starfield: the catalog parser, the spectral palette and the scene
      assembler of [main.ts], embedded in Rocq.

    The program reads the Yale Bright Star Catalog (fixed-width text), keeps the
    lines whose numeric columns parse, creates ten glTF materials and emits one
    glTF node per star.

    JavaScript numbers are IEEE 754 binary64 values: they are Rocq's primitive
    floats, and the parser is written over them.  The palette and the
    assembler are written over the operations they use ([Number]), so that
    their code is read over binary64 numbers and over real numbers.  Strings
    are sequences of code units; the catalog is ASCII text, and a code unit is
    an 8-bit character ([ascii], read as a code point below 256).  Objects
    that the program shares and updates in place (the glTF document, the
    scratch quaternions) are states passed from one statement to the next. *)

From Stdlib Require Import ZArith List String Ascii Bool Lia Floats DecimalString.
From Stdlib Require Import Reals Lra.
Import ListNotations.

(* Decimal literals denote the nearest binary64 number, as in JavaScript. *)
#[local] Set Warnings "-inexact-float".

Local Open Scope string_scope.
Local Open Scope list_scope.

(** ** The JavaScript builtins used by [main.ts] *)

Module JS.

(** *** Strings *)

(** [WhiteSpace] and [LineTerminator] code points below 256: TAB, LF, VT, FF,
    CR, SP and NBSP.  They are what [trim], [parseInt] and [parseFloat] strip. *)
Definition isWhiteSpace (c : ascii) : bool :=
  let n := nat_of_ascii c in
  ((9 <=? n)%nat && (n <=? 13)%nat) || (n =? 32)%nat || (n =? 160)%nat.

(** [s.split(sep)] for a separator of one code unit: the pieces between the
    separators, one more than there are separators ([""] for the empty string). *)
Fixpoint split (sep : ascii) (s : string) : list string :=
  match s with
  | EmptyString => [EmptyString]
  | String c s' =>
      if Ascii.eqb c sep then EmptyString :: split sep s'
      else match split sep s' with
           | piece :: rest => String c piece :: rest
           | [] => [String c EmptyString]
           end
  end.

(** [s.substring(indexStart, indexEnd)]: both indices are clamped to the
    length of [s] and swapped when out of order. *)
Definition substring (s : string) (indexStart indexEnd : nat) : string :=
  let len := String.length s in
  let finalStart := Nat.min indexStart len in
  let finalEnd := Nat.min indexEnd len in
  let from := Nat.min finalStart finalEnd in
  let to := Nat.max finalStart finalEnd in
  String.substring from (to - from)%nat s.

Fixpoint trimStart (s : string) : string :=
  match s with
  | EmptyString => EmptyString
  | String c s' => if isWhiteSpace c then trimStart s' else s
  end.

Fixpoint trimEnd (s : string) : string :=
  match s with
  | EmptyString => EmptyString
  | String c s' =>
      match trimEnd s' with
      | EmptyString => if isWhiteSpace c then EmptyString else String c EmptyString
      | t => String c t
      end
  end.

(** [s.trim()] *)
Definition trim (s : string) : string := trimEnd (trimStart s).

(** [s[0]]: the first code unit, [undefined] (here [None]) on the empty string. *)
Definition charAt0 (s : string) : option ascii :=
  match s with
  | EmptyString => None
  | String c _ => Some c
  end.

(** *** Numbers *)

(** The Number value of the rational [num / den] ([den > 0]) with the given
    sign: round to nearest, ties to even, overflow to an infinity, as IEEE 754
    and ECMAScript's "the Number value for" prescribe.  The quotient is
    computed on integers by the division core of the specification of
    floating-point division, which is exact for mantissas of any size. *)
Definition number_of_ratio (negative : bool) (num den : Z) : float :=
  match num with
  | Z0 => if negative then neg_zero else zero
  | _ =>
      let '(q, e, l) := SFdiv_core_binary prec emax (Z.abs num) 0 (Z.abs den) 0 in
      SF2Prim (binary_round_aux prec emax negative q e l)
  end.

Definition isDecimalDigit (c : ascii) : bool :=
  let n := nat_of_ascii c in (48 <=? n)%nat && (n <=? 57)%nat.

Definition digitValue (c : ascii) : Z := (Z.of_nat (nat_of_ascii c) - 48)%Z.

(** The value of a hexadecimal digit, if it is one. *)
Definition hexDigitValue (c : ascii) : option Z :=
  let n := nat_of_ascii c in
  if (48 <=? n)%nat && (n <=? 57)%nat then Some (Z.of_nat n - 48)%Z
  else if (65 <=? n)%nat && (n <=? 70)%nat then Some (Z.of_nat n - 55)%Z
  else if (97 <=? n)%nat && (n <=? 102)%nat then Some (Z.of_nat n - 87)%Z
  else None.

(** The longest prefix of decimal digits of [s]: how many there are, their
    value on top of the accumulator [acc], and the rest of the string. *)
Fixpoint scanDigits (s : string) (acc : Z) (count : nat) : Z * nat * string :=
  match s with
  | String c s' =>
      if isDecimalDigit c then scanDigits s' (10 * acc + digitValue c)%Z (S count)
      else (acc, count, s)
  | EmptyString => (acc, count, s)
  end.

Fixpoint scanHexDigits (s : string) (acc : Z) (count : nat) : Z * nat * string :=
  match s with
  | String c s' =>
      match hexDigitValue c with
      | Some d => scanHexDigits s' (16 * acc + d)%Z (S count)
      | None => (acc, count, s)
      end
  | EmptyString => (acc, count, s)
  end.

(** A leading ["+"] or ["-"]: whether it is a minus, and the rest. *)
Definition scanSign (s : string) : bool * string :=
  match s with
  | String "-" s' => (true, s')
  | String "+" s' => (false, s')
  | _ => (false, s)
  end.

(** [parseInt(s)] with no radix: leading white space is skipped, a sign is
    read, the radix is 16 after ["0x"] or ["0X"] and 10 otherwise, and the
    longest prefix of digits is the value; [NaN] when there is no digit. *)
Definition parseInt (s : string) : float :=
  let '(negative, s1) := scanSign (trimStart s) in
  let '(value, count, _) :=
    match s1 with
    | String "0" (String "x" s2) | String "0" (String "X" s2) => scanHexDigits s2 0 0
    | _ => scanDigits s1 0 0
    end in
  match count with
  | O => nan
  | S _ => number_of_ratio negative value 1
  end.

(** The exponent part of a decimal literal, ["e"] or ["E"], an optional sign
    and at least one digit: its value and the rest; [None] when [s] does not
    start with a complete exponent part. *)
Definition scanExponent (s : string) : option (Z * string) :=
  match s with
  | String "e" s1 | String "E" s1 =>
      let '(negative, s2) := scanSign s1 in
      let '(value, count, rest) := scanDigits s2 0 0 in
      match count with
      | O => None
      | S _ => Some (if negative then (- value)%Z else value, rest)
      end
  | _ => None
  end.

(** [prefix p s]: [s] without its prefix [p], if it starts with it. *)
Fixpoint stripPrefix (p s : string) : option string :=
  match p, s with
  | EmptyString, _ => Some s
  | String a p', String b s' => if Ascii.eqb a b then stripPrefix p' s' else None
  | String _ _, EmptyString => None
  end.

(** The Number value of [mantissa * 10 ^ exponent10]. *)
Definition number_of_decimal (negative : bool) (mantissa exponent10 : Z) : float :=
  if (0 <=? exponent10)%Z
  then number_of_ratio negative (mantissa * 10 ^ exponent10)%Z 1
  else number_of_ratio negative mantissa (10 ^ (- exponent10))%Z.

(** [parseFloat(s)]: leading white space is skipped and the longest prefix
    that is a [StrDecimalLiteral] is the value: a sign, then [Infinity], or
    digits with an optional fraction and an optional exponent part, or a
    fraction starting with the point; [NaN] when no prefix is one. *)
Definition parseFloat (s : string) : float :=
  let '(negative, s1) := scanSign (trimStart s) in
  match stripPrefix "Infinity" s1 with
  | Some _ => if negative then neg_infinity else infinity
  | None =>
      let '(intValue, intCount, s2) := scanDigits s1 0 0 in
      let '(mantissa, fracCount, s3) :=
        match s2 with
        | String "." s2' =>
            let '(m, total, rest) := scanDigits s2' intValue intCount in
            (m, (total - intCount)%nat, rest)
        | _ => (intValue, O, s2)
        end in
      match (intCount + fracCount)%nat with
      | O => nan
      | S _ =>
          let exponent :=
            match scanExponent s3 with
            | Some (e, _) => e
            | None => 0%Z
            end in
          number_of_decimal negative mantissa (exponent - Z.of_nat fracCount)%Z
      end
  end.

(** [isNaN(x)] for a number [x]. *)
Definition isNaN (x : float) : bool := is_nan x.

(** [true] for the minus sign of a negative number ([false] for [-0], which is
    not below zero). *)
Definition isNegative (x : float) : bool := ltb x zero.

(** A finite number as [m * 2 ^ e] with [m >= 0]: its absolute value. *)
Definition magnitudeOf (x : float) : Z * Z :=
  match Prim2SF x with
  | S754_finite _ m e => (Zpos m, e)
  | _ => (0%Z, 0%Z)
  end.

Fixpoint zeros (n : nat) : string :=
  match n with
  | O => EmptyString
  | S n' => String "0" (zeros n')
  end.

(** [x.toFixed(fractionDigits)].  [NaN] and the infinities print as their
    names.  Otherwise [n] is the integer for which [n / 10 ^ f] is closest to
    the absolute value of [x], the larger one on a tie, and the result is the
    sign, the digits of [n] before the last [f] ones (at least one digit), the
    point and the last [f] digits.  From [10 ^ 21] on JavaScript prints the
    shortest exponent notation that reads back as [x]; here all the digits of
    [x] are printed, a string that [parseFloat] reads back as [x] as well. *)
Definition toFixed (x : float) (fractionDigits : nat) : string :=
  if is_nan x then "NaN"
  else if is_infinity x then (if isNegative x then "-Infinity" else "Infinity")
  else
    let '(m, e) := magnitudeOf x in
    let f := Z.of_nat fractionDigits in
    let n :=
      if (0 <=? e)%Z then (m * 2 ^ e * 10 ^ f)%Z
      else ((2 * m * 10 ^ f + 2 ^ (- e)) / 2 ^ (1 - e))%Z in
    let digits := NilZero.string_of_uint (N.to_uint (Z.to_N n)) in
    let k := String.length digits in
    let padded :=
      if (k <=? fractionDigits)%nat then (zeros (S fractionDigits - k) ++ digits)%string
      else digits in
    let k := String.length padded in
    let a := String.substring 0 (k - fractionDigits) padded in
    let b := String.substring (k - fractionDigits) fractionDigits padded in
    let s := if isNegative x then "-" else "" in
    match fractionDigits with
    | O => (s ++ a)%string
    | S _ => (s ++ a ++ "." ++ b)%string
    end.

(** [s.toUpperCase()] on the letters of ASCII.  The code units from 128 on,
    which JavaScript maps too, are left as they are: none of them has a letter
    of ASCII as its upper case. *)
Definition toUpperCaseChar (c : ascii) : ascii :=
  let n := nat_of_ascii c in
  if (97 <=? n)%nat && (n <=? 122)%nat then ascii_of_nat (n - 32) else c.

Fixpoint toUpperCase (s : string) : string :=
  match s with
  | EmptyString => EmptyString
  | String c s' => String (toUpperCaseChar c) (toUpperCase s')
  end.

(** [Math.fround]: the number stored in an element of a [Float32Array], the
    binary32 value nearest to [x]. *)
Definition fround (x : float) : float :=
  match Prim2SF x with
  | S754_finite s m e => SF2Prim (binary_round 24 128 s m e)
  | _ => x
  end.

End JS.

(** ** Arrays

    A JavaScript array may have holes; [entries[i] = v] extends the array when
    [i] is past its end.  An array is a list of optional elements, a hole being
    [None]. *)

Definition Array (A : Type) : Type := list (option A).

(** [a[i] = v] *)
Definition array_set {A : Type} (a : Array A) (i : nat) (v : A) : Array A :=
  if (i <? List.length a)%nat
  then firstn i a ++ Some v :: skipn (S i) a
  else a ++ repeat None (i - List.length a) ++ [Some v].

(** The elements [forEach] visits, in index order: holes are passed over. *)
Fixpoint array_elements {A : Type} (a : Array A) : list A :=
  match a with
  | [] => []
  | Some v :: a' => v :: array_elements a'
  | None :: a' => array_elements a'
  end.

(** ** The catalog parser ([parse]) *)

(** The tuple type [starData]; [sc] is [st[0]], a string of one code unit or
    [undefined]. *)
Record starData (number : Type) : Type := mkStarData {
  bsn : number;
  rightAscension : number;
  declination : number;
  magnitude : number;
  spectralClass : option ascii;
  name : string
}.

Arguments mkStarData {number}.
Arguments bsn {number}.
Arguments rightAscension {number}.
Arguments declination {number}.
Arguments magnitude {number}.
Arguments spectralClass {number}.
Arguments name {number}.

Local Open Scope float_scope.

(** The numeric columns of a line. *)
Definition raH (l : string) : float := JS.parseFloat (JS.substring l 75 77).
Definition raM (l : string) : float := JS.parseFloat (JS.substring l 77 79).
Definition raS (l : string) : float := JS.parseFloat (JS.substring l 79 83).
Definition deSign (l : string) : float :=
  if String.eqb (JS.substring l 83 84) "-" then -1 else 1.
Definition deDeg (l : string) : float := JS.parseFloat (JS.substring l 84 86).
Definition deMin (l : string) : float := JS.parseFloat (JS.substring l 86 88).
Definition deSec (l : string) : float := JS.parseFloat (JS.substring l 88 90).

(** The tuple the loop body builds from the line [l], before it decides
    whether to keep it. *)
Definition lineEntry (l : string) : starData float :=
  let bsn := JS.parseInt (JS.substring l 0 4) in
  let name1 := JS.trim (JS.substring l 4 13) in
  let name2 := JS.trim (JS.substring l 14 25) in
  let name := JS.trim (name1 ++ " " ++ name2)%string in
  let ra := ((raH l + raM l / 60 + raS l / 3600) / 24) * 360 in
  let de := deSign l * (deDeg l + deMin l / 60 + deSec l / 3600) in
  let mag := JS.parseFloat (JS.substring l 102 107) in
  let st := JS.trim (JS.substring l 127 147) in
  let sc := JS.charAt0 st in
  mkStarData bsn ra de mag sc name.

(** [[bsn, ra, de, mag].some(isNaN)] *)
Definition someIsNaN (e : starData float) : bool :=
  existsb JS.isNaN [bsn e; rightAscension e; declination e; magnitude e].

(** One iteration of [for (const l of lines)] on the state [(entries, count)]:
    [continue] leaves the state as it is. *)
Definition parseStep (state : Array (starData float) * nat) (l : string)
  : Array (starData float) * nat :=
  let '(entries, count) := state in
  let e := lineEntry l in
  if someIsNaN e then (entries, count)
  else (array_set entries count e, S count).

(** [parse(data)]: the array the function returns. *)
Definition parseArray (data : string) : Array (starData float) :=
  let lines := JS.split "010" data in
  fst (fold_left parseStep lines ([], O)).

(** The entries of [parse(data)], as [entries.forEach] visits them. *)
Definition parse (data : string) : list (starData float) :=
  array_elements (parseArray data).

Local Close Scope float_scope.

(** ** Predicates on lines used to state the parser's properties *)

(** The line is kept by the loop: none of the four numbers is [NaN]. *)
Definition retained (l : string) : bool := negb (someIsNaN (lineEntry l)).

(** All four numbers of the line are finite. *)
Definition allFinite (l : string) : bool :=
  let e := lineEntry l in
  forallb is_finite [bsn e; rightAscension e; declination e; magnitude e].

Fixpoint allWhiteSpace (s : string) : bool :=
  match s with
  | EmptyString => true
  | String c s' => JS.isWhiteSpace c && allWhiteSpace s'
  end.

(** The character of the declination sign column, if the line has one. *)
Definition signColumn (l : string) : option ascii := String.get 83 l.

(** ** Numbers of the scene assembler

    The palette and the assembler compute with JavaScript numbers.  Their code
    is written once, over the operations it uses, and read twice: over
    binary64 numbers, as the program runs it, and over real numbers, where the
    operations are exact and only the decimal rounding of [toFixed] remains. *)

Class Number (T : Type) : Type := {
  (** the numeric literal [m * 10 ^ e] *)
  ofDecimal : Z -> Z -> T;
  add : T -> T -> T;
  sub : T -> T -> T;
  mul : T -> T -> T;
  div : T -> T -> T;
  (** unary minus *)
  neg : T -> T;
  (** [x ** y] *)
  pow : T -> T -> T;
  Math_sin : T -> T;
  Math_cos : T -> T;
  Math_PI : T;
  (** the number an element of a [Float32Array] holds *)
  float32 : T -> T;
  (** [parseFloat(x.toFixed(digits))] *)
  parseFloat_toFixed : T -> nat -> T
}.

Declare Scope number_scope.
Delimit Scope number_scope with num.
Infix "+" := add : number_scope.
Infix "-" := sub : number_scope.
Infix "*" := mul : number_scope.
Infix "/" := div : number_scope.
Infix "**" := pow (at level 30, right associativity) : number_scope.
Notation "- x" := (neg x) : number_scope.

(** An integer literal. *)
Definition int {T : Type} `{Number T} (n : Z) : T := ofDecimal n 0.

(** Binary64 numbers.  [Math.sin], [Math.cos] and [**] are approximated by the
    JavaScript engine in a way ECMAScript leaves open: they are parameters. *)
Definition binary64 (sin cos : float -> float) (exponentiate : float -> float -> float)
  : Number float := {|
  ofDecimal m e := JS.number_of_decimal (m <? 0)%Z (Z.abs m) e;
  add := PrimFloat.add;
  sub := PrimFloat.sub;
  mul := PrimFloat.mul;
  div := PrimFloat.div;
  neg := PrimFloat.opp;
  pow := exponentiate;
  Math_sin := sin;
  Math_cos := cos;
  Math_PI := 3.141592653589793%float;
  float32 := JS.fround;
  parseFloat_toFixed x digits := JS.parseFloat (JS.toFixed x digits)
|}.

(** The integer [toFixed] rounds [x * 10 ^ digits] to, for [x >= 0]: the
    nearest one, the larger one on a tie. *)
Definition nearestInteger (y : R) : Z := Int_part (y + / 2)%R.

(** [toFixed] on real numbers followed by [parseFloat]: the sign is set aside,
    the absolute value is rounded to [digits] decimals, and the sign is put
    back. *)
Definition roundDecimals (x : R) (digits : nat) : R :=
  if Rlt_dec x 0
  then (- (IZR (nearestInteger (- x * 10 ^ digits)) / 10 ^ digits))%R
  else (IZR (nearestInteger (x * 10 ^ digits)) / 10 ^ digits)%R.

(** Real numbers: exact arithmetic. *)
Definition exact : Number R := {|
  ofDecimal m e :=
    (if (0 <=? e)%Z then IZR m * 10 ^ Z.to_nat e else IZR m / 10 ^ Z.to_nat (- e))%R;
  add := Rplus;
  sub := Rminus;
  mul := Rmult;
  div := Rdiv;
  neg := Ropp;
  pow := Rpower;
  Math_sin := sin;
  Math_cos := cos;
  Math_PI := PI;
  float32 x := x;
  parseFloat_toFixed := roundDecimals
|}.

(** ** The playcanvas library: [Vec3] and [Quat]

    The playcanvas library is not among the sources.  The specification names
    what the assembler asks of it: a rotation about an axis by an angle in
    degrees, the composition of two rotations, and a rotation applied to a
    vector.  The three methods below are these, computed the way the library
    computes them; an assignment to a field of [this] is an update of the
    object. *)

Section Playcanvas.

Context {T : Type} `{Number T}.
Local Open Scope number_scope.

Record Vec3 : Type := mkVec3 { vx : T; vy : T; vz : T }.

(** [Vec3.UP], [Vec3.RIGHT] and [Vec3.FORWARD] *)
Definition Vec3_UP : Vec3 := mkVec3 (int 0) (int 1) (int 0).
Definition Vec3_RIGHT : Vec3 := mkVec3 (int 1) (int 0) (int 0).
Definition Vec3_FORWARD : Vec3 := mkVec3 (int 0) (int 0) (int (-1)).

Record Quat : Type := mkQuat { qx : T; qy : T; qz : T; qw : T }.

(** [new Quat()]: the identity rotation *)
Definition newQuat : Quat := mkQuat (int 0) (int 0) (int 0) (int 1).

Definition set_qx (this : Quat) (v : T) : Quat := mkQuat v (qy this) (qz this) (qw this).
Definition set_qy (this : Quat) (v : T) : Quat := mkQuat (qx this) v (qz this) (qw this).
Definition set_qz (this : Quat) (v : T) : Quat := mkQuat (qx this) (qy this) v (qw this).
Definition set_qw (this : Quat) (v : T) : Quat := mkQuat (qx this) (qy this) (qz this) v.

(** [math.DEG_TO_RAD] *)
Definition DEG_TO_RAD : T := Math_PI / int 180.

(** Modelled from the spec: [Quat.setFromAxisAngle] of playcanvas, the
    rotation about [axis] by [angle] degrees (section 4.3, steps 1 and 2).
    [this.setFromAxisAngle(axis, angle)]: the object [this] after the call. *)
Definition setFromAxisAngle (this : Quat) (axis : Vec3) (angle : T) : Quat :=
  let angle := angle * (ofDecimal 5 (-1) * DEG_TO_RAD) in
  let sa := Math_sin angle in
  let ca := Math_cos angle in
  let this := set_qx this (sa * vx axis) in
  let this := set_qy this (sa * vy axis) in
  let this := set_qz this (sa * vz axis) in
  let this := set_qw this ca in
  this.

(** Modelled from the spec: [Quat.mul2] of playcanvas, the composition of two
    rotations, [rhs] applied first (section 4.3, step 3).
    [this.mul2(lhs, rhs)]: the object [this] after the call. *)
Definition mul2 (this lhs rhs : Quat) : Quat :=
  let q1x := qx lhs in
  let q1y := qy lhs in
  let q1z := qz lhs in
  let q1w := qw lhs in
  let q2x := qx rhs in
  let q2y := qy rhs in
  let q2z := qz rhs in
  let q2w := qw rhs in
  let this := set_qx this (q1w * q2x + q1x * q2w + q1y * q2z - q1z * q2y) in
  let this := set_qy this (q1w * q2y + q1y * q2w + q1z * q2x - q1x * q2z) in
  let this := set_qz this (q1w * q2z + q1z * q2w + q1x * q2y - q1y * q2x) in
  let this := set_qw this (q1w * q2w - q1x * q2x - q1y * q2y - q1z * q2z) in
  this.

(** Modelled from the spec: [Quat.transformVector] of playcanvas, the rotation
    applied to a vector (section 4.3, step 4).
    [this.transformVector(vec)]: the new vector it returns. *)
Definition transformVector (this : Quat) (vec : Vec3) : Vec3 :=
  let x := vx vec in
  let y := vy vec in
  let z := vz vec in
  let qx := qx this in
  let qy := qy this in
  let qz := qz this in
  let qw := qw this in
  let ix := qw * x + qy * z - qz * y in
  let iy := qw * y + qz * x - qx * z in
  let iz := qw * z + qx * y - qy * x in
  let iw := - qx * x - qy * y - qz * z in
  mkVec3 (ix * qw + iw * - qx + iy * - qz - iz * - qy)
         (iy * qw + iw * - qy + iz * - qx - ix * - qz)
         (iz * qw + iw * - qz + ix * - qy - iy * - qx).

End Playcanvas.

Arguments Vec3 T : clear implicits.
Arguments Quat T : clear implicits.

(** ** Objects used as maps

    [{ [s: string]: V }]: the properties in the order they were first set. *)

Definition Dict (V : Type) : Type := list (string * V).

(** [d[k]], [undefined] (here [None]) when [d] has no property [k]. *)
Fixpoint dict_get {V : Type} (d : Dict V) (k : string) : option V :=
  match d with
  | [] => None
  | (k', v) :: d' => if String.eqb k' k then Some v else dict_get d' k
  end.

(** [d[k] = v] *)
Fixpoint dict_set {V : Type} (d : Dict V) (k : string) (v : V) : Dict V :=
  match d with
  | [] => [(k, v)]
  | (k', v') :: d' =>
      if String.eqb k' k then (k', v) :: d' else (k', v') :: dict_set d' k v
  end.

(** The property key of [sc] in [materials[sc]]: the string itself, and
    ["undefined"] for [undefined]. *)
Definition propertyKey (sc : option ascii) : string :=
  match sc with
  | Some c => String c EmptyString
  | None => "undefined"
  end.

(** ** The glTF document ([@gltf-transform/core])

    The gltf-transform library is not among the sources.  A document owns its
    accessors, materials, primitives, meshes, nodes and scenes (sections 3 and
    6 of the specification); an object is known by its index in the document,
    which is what a reference to it is; [create...] appends an object with the
    library's default values, and a setter updates the object in place.  A
    setter of a reference that is given [undefined] or [null] sets none. *)

(** [l] with [f] applied to its element at index [i]. *)
Fixpoint modify {A : Type} (i : nat) (f : A -> A) (l : list A) : list A :=
  match l, i with
  | [], _ => []
  | x :: l', O => f x :: l'
  | x :: l', S i' => x :: modify i' f l'
  end.

Section Gltf.

Context {T : Type} `{Number T}.
Local Open Scope number_scope.

Definition vec3 : Type := T * T * T.
Definition vec4 : Type := T * T * T * T.

Record Accessor : Type := mkAccessor {
  accessorType : string;
  accessorArray : list T
}.

Record Material : Type := mkMaterial {
  emissiveFactor : vec3;
  baseColorFactor : vec4;
  metallicFactor : T;
  roughnessFactor : T;
  (** [extras.cls] *)
  materialClass : option string
}.

Record Primitive : Type := mkPrimitive {
  (** semantic to accessor *)
  attributes : Dict nat;
  material : option nat;
  mode : nat
}.

Record Mesh : Type := mkMesh { meshPrimitives : list nat }.

(** [{ mag, bsn, name }] *)
Record NodeExtras : Type := mkNodeExtras {
  extrasMag : T;
  extrasBsn : T;
  extrasName : string
}.

Record Node : Type := mkNode {
  nodeMesh : option nat;
  nodeScale : vec3;
  nodeRotation : vec4;
  nodeTranslation : vec3;
  nodeExtras : option NodeExtras
}.

Record Scene : Type := mkScene { children : list nat }.

(** Modelled from the spec: the [Document] of gltf-transform, by the objects
    it owns. *)
Record Document : Type := mkDocument {
  buffers : nat;
  accessors : list Accessor;
  materials : list Material;
  primitives : list Primitive;
  meshes : list Mesh;
  nodes : list Node;
  scenes : list Scene
}.

(** [new Document()] *)
Definition newDocument : Document := mkDocument 0 [] [] [] [] [] [].

Definition withAccessors (doc : Document) (l : list Accessor) : Document :=
  mkDocument (buffers doc) l (materials doc) (primitives doc) (meshes doc) (nodes doc) (scenes doc).
Definition withMaterials (doc : Document) (l : list Material) : Document :=
  mkDocument (buffers doc) (accessors doc) l (primitives doc) (meshes doc) (nodes doc) (scenes doc).
Definition withPrimitives (doc : Document) (l : list Primitive) : Document :=
  mkDocument (buffers doc) (accessors doc) (materials doc) l (meshes doc) (nodes doc) (scenes doc).
Definition withMeshes (doc : Document) (l : list Mesh) : Document :=
  mkDocument (buffers doc) (accessors doc) (materials doc) (primitives doc) l (nodes doc) (scenes doc).
Definition withNodes (doc : Document) (l : list Node) : Document :=
  mkDocument (buffers doc) (accessors doc) (materials doc) (primitives doc) (meshes doc) l (scenes doc).
Definition withScenes (doc : Document) (l : list Scene) : Document :=
  mkDocument (buffers doc) (accessors doc) (materials doc) (primitives doc) (meshes doc) (nodes doc) l.

Definition createBuffer (doc : Document) : nat * Document :=
  (buffers doc,
   mkDocument (S (buffers doc)) (accessors doc) (materials doc) (primitives doc)
              (meshes doc) (nodes doc) (scenes doc)).

Definition createScene (doc : Document) : nat * Document :=
  (List.length (scenes doc), withScenes doc (scenes doc ++ [mkScene []])).

Definition createAccessor (doc : Document) : nat * Document :=
  (List.length (accessors doc), withAccessors doc (accessors doc ++ [mkAccessor "SCALAR" []])).

Definition setType (acc : nat) (type : string) (doc : Document) : Document :=
  withAccessors doc (modify acc (fun a => mkAccessor type (accessorArray a)) (accessors doc)).

Definition setArray (acc : nat) (array : list T) (doc : Document) : Document :=
  withAccessors doc (modify acc (fun a => mkAccessor (accessorType a) array) (accessors doc)).

Definition createMaterial (doc : Document) : nat * Document :=
  (List.length (materials doc),
   withMaterials doc
     (materials doc
      ++ [mkMaterial (int 0, int 0, int 0) (int 1, int 1, int 1, int 1) (int 1) (int 1) None])).

Definition setEmissiveFactor (mat : nat) (v : vec3) (doc : Document) : Document :=
  withMaterials doc
    (modify mat (fun m => mkMaterial v (baseColorFactor m) (metallicFactor m)
                                     (roughnessFactor m) (materialClass m))
            (materials doc)).

Definition setBaseColorFactor (mat : nat) (v : vec4) (doc : Document) : Document :=
  withMaterials doc
    (modify mat (fun m => mkMaterial (emissiveFactor m) v (metallicFactor m)
                                     (roughnessFactor m) (materialClass m))
            (materials doc)).

Definition setMetallicFactor (mat : nat) (v : T) (doc : Document) : Document :=
  withMaterials doc
    (modify mat (fun m => mkMaterial (emissiveFactor m) (baseColorFactor m) v
                                     (roughnessFactor m) (materialClass m))
            (materials doc)).

Definition setRoughnessFactor (mat : nat) (v : T) (doc : Document) : Document :=
  withMaterials doc
    (modify mat (fun m => mkMaterial (emissiveFactor m) (baseColorFactor m)
                                     (metallicFactor m) v (materialClass m))
            (materials doc)).

(** [mat.setExtras({ cls })] *)
Definition setMaterialExtras (mat : nat) (cls : string) (doc : Document) : Document :=
  withMaterials doc
    (modify mat (fun m => mkMaterial (emissiveFactor m) (baseColorFactor m)
                                     (metallicFactor m) (roughnessFactor m) (Some cls))
            (materials doc)).

Definition createPrimitive (doc : Document) : nat * Document :=
  (List.length (primitives doc),
   withPrimitives doc (primitives doc ++ [mkPrimitive [] None 4])).

Definition setAttribute (prim : nat) (semantic : string) (acc : nat) (doc : Document)
  : Document :=
  withPrimitives doc
    (modify prim (fun p => mkPrimitive (dict_set (attributes p) semantic acc)
                                       (material p) (mode p))
            (primitives doc)).

(** [prim.setMaterial(mat)]: with [undefined] the primitive is left without a
    material. *)
Definition setMaterial (prim : nat) (mat : option nat) (doc : Document) : Document :=
  withPrimitives doc
    (modify prim (fun p => mkPrimitive (attributes p) mat (mode p)) (primitives doc)).

Definition setMode (prim : nat) (m : nat) (doc : Document) : Document :=
  withPrimitives doc
    (modify prim (fun p => mkPrimitive (attributes p) (material p) m) (primitives doc)).

Definition createMesh (doc : Document) : nat * Document :=
  (List.length (meshes doc), withMeshes doc (meshes doc ++ [mkMesh []])).

Definition addPrimitive (mesh prim : nat) (doc : Document) : Document :=
  withMeshes doc
    (modify mesh (fun m => mkMesh (meshPrimitives m ++ [prim])) (meshes doc)).

Definition createNode (doc : Document) : nat * Document :=
  (List.length (nodes doc),
   withNodes doc
     (nodes doc
      ++ [mkNode None (int 1, int 1, int 1) (int 0, int 0, int 0, int 1)
                 (int 0, int 0, int 0) None])).

Definition setMesh (node mesh : nat) (doc : Document) : Document :=
  withNodes doc
    (modify node (fun n => mkNode (Some mesh) (nodeScale n) (nodeRotation n)
                                  (nodeTranslation n) (nodeExtras n))
            (nodes doc)).

Definition setScale (node : nat) (v : vec3) (doc : Document) : Document :=
  withNodes doc
    (modify node (fun n => mkNode (nodeMesh n) v (nodeRotation n)
                                  (nodeTranslation n) (nodeExtras n))
            (nodes doc)).

Definition setRotation (node : nat) (v : vec4) (doc : Document) : Document :=
  withNodes doc
    (modify node (fun n => mkNode (nodeMesh n) (nodeScale n) v
                                  (nodeTranslation n) (nodeExtras n))
            (nodes doc)).

Definition setTranslation (node : nat) (v : vec3) (doc : Document) : Document :=
  withNodes doc
    (modify node (fun n => mkNode (nodeMesh n) (nodeScale n) (nodeRotation n)
                                  v (nodeExtras n))
            (nodes doc)).

(** [node.setExtras({ mag, bsn, name })] *)
Definition setNodeExtras (node : nat) (e : NodeExtras) (doc : Document) : Document :=
  withNodes doc
    (modify node (fun n => mkNode (nodeMesh n) (nodeScale n) (nodeRotation n)
                                  (nodeTranslation n) (Some e))
            (nodes doc)).

(** [scene.addChild(node)] for a node that has no parent yet. *)
Definition addChild (scene node : nat) (doc : Document) : Document :=
  withScenes doc
    (modify scene (fun s => mkScene (children s ++ [node])) (scenes doc)).

(** ** The globals of [main.ts] *)

(** [gltfDocument] and [gltfScene] once the module's constants are set: the
    document holds the scene, which is its first. *)
Definition gltfDocument : Document := snd (createScene newDocument).
Definition gltfScene : nat := fst (createScene newDocument).

(** ** The spectral palette ([spectralClassToColor], [createMaterials]) *)

Definition spectralClassToColor (cls : string) : vec3 :=
  let upper := JS.toUpperCase cls in
  let color :=
    if String.eqb upper "O" || String.eqb upper "W"
    then (ofDecimal 57 (-2), ofDecimal 71 (-2), int 1)
    else if String.eqb upper "B"
    then (ofDecimal 63 (-2), ofDecimal 75 (-2), int 1)
    else if String.eqb upper "A"
    then (ofDecimal 83 (-2), ofDecimal 875 (-3), int 1)
    else if String.eqb upper "F"
    then (ofDecimal 97 (-2), ofDecimal 95 (-2), int 1)
    else if String.eqb upper "G"
    then (int 1, ofDecimal 92 (-2), ofDecimal 88 (-2))
    else if String.eqb upper "K"
    then (int 1, ofDecimal 85 (-2), ofDecimal 70 (-2))
    else if String.eqb upper "M" || String.eqb upper "C" || String.eqb upper "S"
    then (int 1, ofDecimal 70 (-2), ofDecimal 42 (-2))
    else (int 1, int 1, int 1) in
  let '(c0, c1, c2) := color in
  let c0 := c0 * c0 in
  let c1 := c1 * c1 in
  let c2 := c2 * c2 in
  (c0, c1, c2).

Definition starClasses : list string := ["O"; "W"; "B"; "A"; "F"; "G"; "K"; "M"; "C"; "S"].

(** The callback of [starClasses.reduce], on the accumulator and the
    document. *)
Definition createMaterialFor (state : Dict nat * Document) (cls : string)
  : Dict nat * Document :=
  let '(acc, doc) := state in
  let '(mat, doc) := createMaterial doc in
  let color := spectralClassToColor cls in
  let doc := setEmissiveFactor mat color doc in
  let doc := setBaseColorFactor mat (let '(r, g, b) := color in (r, g, b, ofDecimal 10 (-1))) doc in
  let doc := setMetallicFactor mat (int 0) doc in
  let doc := setRoughnessFactor mat (int 1) doc in
  let doc := setMaterialExtras mat cls doc in
  let acc := dict_set acc cls mat in
  (acc, doc).

Definition createMaterials (doc : Document) : Dict nat * Document :=
  fold_left createMaterialFor starClasses ([], doc).

(** ** The scene assembler ([render]) *)

(** [4 ** ((6 - mag) / 4) / 15] *)
Definition starScale (mag : T) : T := int 4 ** ((int 6 - mag) / int 4) / int 15.

(** The transform of one star, lines 201 to 226 of [main.ts]: from the three
    scratch quaternions and the star's numbers to the scratch quaternions
    after the iteration and the rounded rotation, scale and translation. *)
Definition starTransform (q1 q2 q : Quat T) (ra de mag : T)
  : Quat T * Quat T * Quat T * (vec4 * vec3 * vec3) :=
  let q1 := setFromAxisAngle q1 Vec3_UP ra in
  let q2 := setFromAxisAngle q2 Vec3_RIGHT de in
  let q := mul2 q q1 q2 in
  let x := qx q in
  let y := qy q in
  let z := qz q in
  let w := qw q in
  let scale := starScale mag in
  let coords := transformVector q Vec3_FORWARD in
  let rotation :=
    (parseFloat_toFixed x 2, parseFloat_toFixed y 2,
     parseFloat_toFixed z 2, parseFloat_toFixed w 2) in
  let scales :=
    (parseFloat_toFixed scale 2, parseFloat_toFixed scale 2, parseFloat_toFixed scale 2) in
  let translation :=
    (parseFloat_toFixed (vx coords) 3, parseFloat_toFixed (vy coords) 3,
     parseFloat_toFixed (vz coords) 3) in
  (q1, q2, q, (rotation, scales, translation)).

(** The callback of [entries.forEach], on the document and the three scratch
    quaternions; [acc] is the accessor of the octagon. *)
Definition renderStar (materials : Dict nat) (acc : nat)
  (state : Document * Quat T * Quat T * Quat T) (star : starData T)
  : Document * Quat T * Quat T * Quat T :=
  let '(doc, q1, q2, q) := state in
  let '(mkStarData bsn ra de mag sc name) := star in
  let mat := dict_get materials (propertyKey sc) in
  let '(prim, doc) := createPrimitive doc in
  let doc := setAttribute prim "POSITION" acc doc in
  let doc := setMaterial prim mat doc in
  let doc := setMode prim 6 doc in
  let '(mesh, doc) := createMesh doc in
  let doc := addPrimitive mesh prim doc in
  let '(q1, q2, q, (rotation, scales, translation)) := starTransform q1 q2 q ra de mag in
  let '(node, doc) := createNode doc in
  let doc := setMesh node mesh doc in
  let doc := setScale node scales doc in
  let doc := setRotation node rotation doc in
  let doc := setTranslation node translation doc in
  let doc := setNodeExtras node (mkNodeExtras mag bsn name) doc in
  let doc := addChild gltfScene node doc in
  (doc, q1, q2, q).

(** The vertices of the octagon, before they are scaled. *)
Definition octagon : list Z :=
  [  0;   0; 0;
    10;   0; 0;
     7;   7; 0;
     0;  10; 0;
    -7;   7; 0;
   -10;   0; 0;
    -7;  -7; 0;
     0; -10; 0;
     7;  -7; 0;
    10;   0; 0 ]%Z.

(** [render(entries, materials)] on the document: the final state of the
    document and of the scratch quaternions. *)
Definition renderState (entries : list (starData T)) (materials : Dict nat) (doc : Document)
  : Document * Quat T * Quat T * Quat T :=
  let '(_, doc) := createBuffer doc in
  let coords :=
    map (fun n => float32 (n * ofDecimal 1 (-3))) (map (fun n => float32 (int n)) octagon) in
  let '(acc, doc) := createAccessor doc in
  let doc := setType acc "VEC3" doc in
  let doc := setArray acc coords doc in
  let q1 := newQuat in
  let q2 := newQuat in
  let q := newQuat in
  fold_left (renderStar materials acc) entries (doc, q1, q2, q).

Definition render (entries : list (starData T)) (materials : Dict nat) (doc : Document)
  : Document :=
  let '(doc, _, _, _) := renderState entries materials doc in doc.

(** What [main] does between reading the catalog and writing the file, for
    the entries [parse] returned: [createMaterials()] and then
    [render(entries, materials)], on the global document. *)
Definition assemble (entries : list (starData T)) : Document :=
  let '(materials, doc) := createMaterials gltfDocument in
  render entries materials doc.

End Gltf.

Arguments Document T : clear implicits.
Arguments Material T : clear implicits.
Arguments Node T : clear implicits.
Arguments Accessor T : clear implicits.
Arguments NodeExtras T : clear implicits.
Arguments vec3 T : clear implicits.
Arguments vec4 T : clear implicits.

(** [main], from the text of the catalog to the document it serializes. *)
Definition main (sin cos : float -> float) (exponentiate : float -> float -> float)
  (data : string) : Document float :=
  assemble (H := binary64 sin cos exponentiate) (parse data).

(** ** Sample catalog lines *)

Fixpoint spaces (n : nat) : string :=
  match n with
  | O => EmptyString
  | S n' => String " " (spaces n')
  end.

(** A catalog line from its columns: the number (columns 0 to 3), the second
    name field (from column 14), the fifteen columns of right ascension and
    declination (from column 75), the magnitude (from column 102) and the
    spectral type (from column 127). *)
Definition catalogLine (id name2 radec mag st : string) : string :=
  (id ++ spaces 10 ++ name2 ++ spaces (61 - String.length name2) ++ radec
      ++ spaces 12 ++ mag ++ spaces (25 - String.length mag) ++ st)%string.

(** Sirius: right ascension 6h 45m 08.9s, declination -16d 42' 58'',
    magnitude -1.46, spectral type A0mA1 Va. *)
Definition sirius : string :=
  catalogLine "   1" "Alp CMa" "064508.9-164258" "-1.46" "A0mA1 Va".

(** The same line with a magnitude column that reads as [Infinity]. *)
Definition siriusOverflow : string :=
  catalogLine "   1" "Alp CMa" "064508.9-164258" "9e999" "A0mA1 Va".

(** The same line cut after the first column of the magnitude. *)
Definition siriusCut : string :=
  JS.substring (catalogLine "   1" "Alp CMa" "064508.9-164258" "5" "") 0 103.

(** The same line with a blank spectral type. *)
Definition siriusNoType : string :=
  catalogLine "   1" "Alp CMa" "064508.9-164258" "-1.46" (spaces 20).

(** The same line with the spectral type of a carbon star, N0. *)
Definition carbonStar : string :=
  catalogLine "   1" "Alp CMa" "064508.9-164258" "-1.46" "N0".

(** ** Predicates and functions used to state the assembler's properties *)

(** The class is one of the ten letters of [starClasses]. *)
Definition isStarClass (sc : option ascii) : bool :=
  existsb (String.eqb (propertyKey sc)) starClasses.

(** The color table of the specification (section 4.2), before the contrast
    boost, for the ten letters. *)
Definition tableColor (cls : string) : float * float * float :=
  if existsb (String.eqb cls) ["O"; "W"] then (0.57, 0.71, 1.00)%float
  else if String.eqb cls "B" then (0.63, 0.75, 1.00)%float
  else if String.eqb cls "A" then (0.83, 0.875, 1.00)%float
  else if String.eqb cls "F" then (0.97, 0.95, 1.00)%float
  else if String.eqb cls "G" then (1.00, 0.92, 0.88)%float
  else if String.eqb cls "K" then (1.00, 0.85, 0.70)%float
  else if existsb (String.eqb cls) ["M"; "C"; "S"] then (1.00, 0.70, 0.42)%float
  else (1.00, 1.00, 1.00)%float.

(** The descriptor the specification gives the class [cls]: the table color
    with every channel squared as emissive and as base color, alpha 1,
    metallic 0, roughness 1 and the class letter. *)
Definition descriptorOf (cls : string) : Material float :=
  let '(r, g, b) := tableColor cls in
  mkMaterial (r * r, g * g, b * b)%float (r * r, g * g, b * b, 1)%float 0%float 1%float
             (Some cls).

(** All three channels of the emissive and of the base color are in [0, 1]. *)
Definition channelsInUnitInterval (m : Material float) : bool :=
  let '(r, g, b) := emissiveFactor m in
  let '(r', g', b', _) := baseColorFactor m in
  forallb (fun c => (0 <=? c)%float && (c <=? 1)%float) [r; g; b; r'; g'; b'].

(** What a node holds of its star's transform. *)
Definition nodeTransform {T : Type} (n : Node T) : vec4 T * vec3 T * vec3 T :=
  (nodeRotation n, nodeScale n, nodeTranslation n).

(** The rounded rotation, scale and translation of a star with the given right
    ascension, declination and magnitude, computed on fresh quaternions. *)
Definition computeTransform {T : Type} `{Number T} (ra de mag : T)
  : vec4 T * vec3 T * vec3 T :=
  snd (starTransform newQuat newQuat newQuat ra de mag).

(** The primitive, the mesh and the node [renderStar] creates for a star, in a
    document that holds [p] primitives and [m] meshes. *)
Definition starPrimitive {T : Type} (materials : Dict nat) (acc : nat) (star : starData T)
  : Primitive :=
  mkPrimitive [("POSITION", acc)] (dict_get materials (propertyKey (spectralClass star))) 6.

Definition starNode {T : Type} `{Number T} (mesh : nat) (star : starData T) : Node T :=
  let '(rotation, scales, translation) :=
    computeTransform (rightAscension star) (declination star) (magnitude star) in
  mkNode (Some mesh) scales rotation translation
         (Some (mkNodeExtras (magnitude star) (bsn star) (name star))).

(** The document after [renderStar] handled one star, whatever the scratch
    quaternions held. *)
Definition afterStar {T : Type} `{Number T} (palette : Dict nat) (acc : nat)
  (doc : Document T) (star : starData T) : Document T :=
  mkDocument (buffers doc) (accessors doc) (materials doc)
    (primitives doc ++ [starPrimitive palette acc star])
    (meshes doc ++ [mkMesh [List.length (primitives doc)]])
    (nodes doc ++ [starNode (List.length (meshes doc)) star])
    (modify (gltfScene (T := T))
            (fun s => mkScene (children s ++ [List.length (nodes doc)])) (scenes doc)).

(** The document of a state of the loop of [render]. *)
Definition documentOf {T : Type} (state : Document T * Quat T * Quat T * Quat T)
  : Document T :=
  let '(doc, _, _, _) := state in doc.

(** The material [createMaterialFor] leaves for the class [cls]. *)
Definition materialFor {T : Type} `{Number T} (cls : string) : Material T :=
  let '(r, g, b) := spectralClassToColor cls in
  mkMaterial (r, g, b) (r, g, b, ofDecimal 10 (-1)) (int 0) (int 1) (Some cls).

(** The rotation [render] composes for a star, and where it takes the forward
    vector. *)
Definition starRotation {T : Type} `{Number T} (ra de : T) : Quat T :=
  mul2 newQuat (setFromAxisAngle newQuat Vec3_UP ra) (setFromAxisAngle newQuat Vec3_RIGHT de).


(** Three records in exact arithmetic; the first and the third have the same
    right ascension, declination and magnitude. *)
Definition sampleStars : list (starData R) :=
  [mkStarData 1 101 (-16) (-1) (Some "A"%char) "Alp CMa";
   mkStarData 2 95 (-52) (-1) (Some "F"%char) "Alp Car";
   mkStarData 3 101 (-16) (-1) (Some "K"%char) "twin"]%R.

(** ** Predicates and functions used to state further properties *)

(** The columns [parse] reads a number from: the catalog number, the hours,
    minutes and seconds of the right ascension, the degrees, minutes and
    seconds of the declination, and the magnitude. *)
Definition numericColumns : list (nat * nat) :=
  [(0, 4); (75, 77); (77, 79); (79, 83); (84, 86); (86, 88); (88, 90); (102, 107)]%nat.

(** One of the numeric columns of the line is blank. *)
Definition hasBlankNumber (l : string) : bool :=
  existsb (fun ab => allWhiteSpace (JS.substring l (fst ab) (snd ab))) numericColumns.

(** The code unit [c] occurs in [s]. *)
Fixpoint occurs (c : ascii) (s : string) : bool :=
  match s with
  | EmptyString => false
  | String c' s' => Ascii.eqb c' c || occurs c s'
  end.

(** How many times the code unit [c] occurs in [s]. *)
Fixpoint occurrences (c : ascii) (s : string) : nat :=
  match s with
  | EmptyString => O
  | String c' s' => ((if Ascii.eqb c' c then 1 else 0) + occurrences c s')%nat
  end.

(** The line feed, the separator of [data.split("\n")]. *)
Definition lineFeed : ascii := "010"%char.

(** [a] and [b] on two consecutive lines. *)
Definition twoLines (a b : string) : string := (a ++ String lineFeed b)%string.

(** The first and the last code unit of a string are no white space. *)
Definition startsBlank (s : string) : bool :=
  match s with
  | EmptyString => false
  | String c _ => JS.isWhiteSpace c
  end.

Fixpoint endsBlank (s : string) : bool :=
  match s with
  | EmptyString => false
  | String c EmptyString => JS.isWhiteSpace c
  | String _ s' => endsBlank s'
  end.

(** The two name fields of a line, trimmed. *)
Definition name1 (l : string) : string := JS.trim (JS.substring l 4 13).
Definition name2 (l : string) : string := JS.trim (JS.substring l 14 25).

(** The three channels of a color are in [0, 1]. *)
Definition colorInUnitInterval (color : vec3 float) : bool :=
  let '(r, g, b) := color in
  forallb (fun c => (0 <=? c)%float && (c <=? 1)%float) [r; g; b].

(** The color of the specification's table for a class, every channel
    squared. *)
Definition tableColorSquared (cls : string) : vec3 float :=
  let '(r, g, b) := tableColor cls in (r * r, g * g, b * b)%float.

(** The array [render] gives the accessor: the coordinates of the octagon as
    the [Float32Array] holds them, scaled by 0.001. *)
Definition octagonCoords {T : Type} `{Number T} : list T :=
  map (fun n => float32 (mul n (ofDecimal 1 (-3)))) (map (fun n => float32 (int n)) octagon).

(** [materials[key]] for the palette. *)
Definition paletteLookup (palette : Dict nat) (key : string) : option nat :=
  dict_get palette key.

(** ** The program around the core: files, network and [main]

    [main] first makes sure that the catalog is on disk, downloading and
    uncompressing it if needed, and then reads it, assembles the document and
    writes it.  The file system is a map from paths to contents and the
    console a list of lines; what lies outside the program (the answer of the
    server, what [gunzip] does to the files, the serializer, the engine's
    [Math.sin], [Math.cos] and [**]) is an environment.  An operation that
    throws ends [main]: the state it leaves is kept.  The permissions the
    program is run with are granted, and a stream that is piped to a file
    arrives whole. *)

Module Program.

(** What [await fetch(url)] does: it rejects, or gives a response without or
    with a body. *)
Inductive Fetch : Type :=
| FetchRejects
| FetchNoBody
| FetchBody (body : string).

Record Environment : Type := mkEnvironment {
  fetch : string -> Fetch;
  (** the files after the command has run, [None] when it cannot be run *)
  run : list string -> Dict string -> option (Dict string);
  writeBinary : Document float -> string;
  sin : float -> float;
  cos : float -> float;
  exponentiate : float -> float -> float
}.

Record World : Type := mkWorld {
  files : Dict string;
  console : list string
}.

(** A computation: its value, [None] when it throws, and the world it
    leaves. *)
Definition IO (A : Type) : Type := World -> option A * World.

Definition ret {A : Type} (a : A) : IO A := fun w => (Some a, w).

Definition bind {A B : Type} (m : IO A) (k : A -> IO B) : IO B :=
  fun w =>
    match m w with
    | (Some a, w') => k a w'
    | (None, w') => (None, w')
    end.

Notation "x <- m ;; k" := (bind m (fun x => k))
  (at level 61, m at next level, right associativity).
Notation "m ;;; k" := (bind m (fun _ => k))
  (at level 61, right associativity).

Definition throw {A : Type} : IO A := fun w => (None, w).

(** [console.log(line)] *)
Definition console_log (line : string) : IO unit :=
  fun w => (Some tt, mkWorld (files w) (console w ++ [line])).

(** [Deno.stat(path)] in [try { ... } catch { return false } return true]. *)
Definition fileExists (path : string) : IO bool :=
  fun w =>
    (Some (match dict_get (files w) path with Some _ => true | None => false end), w).

(** Writing [body] from the start of a file opened with [write] and [create],
    and not truncated: what the file held past the end of [body] stays. *)
Definition overwrite (old : option string) (body : string) : string :=
  match old with
  | None => body
  | Some content =>
      (body ++ String.substring (String.length body)
                                (String.length content - String.length body) content)%string
  end.

Definition pipeToFile (path body : string) : IO unit :=
  fun w =>
    (Some tt,
     mkWorld (dict_set (files w) path (overwrite (dict_get (files w) path) body))
             (console w)).

(** [Deno.readTextFileSync(path)]: it throws when there is no such file. *)
Definition readTextFileSync (path : string) : IO string :=
  fun w =>
    match dict_get (files w) path with
    | Some content => (Some content, w)
    | None => (None, w)
    end.

(** [Deno.writeFileSync(path, data)]: the file is created or replaced. *)
Definition writeFileSync (path data : string) : IO unit :=
  fun w => (Some tt, mkWorld (dict_set (files w) path data) (console w)).

Definition filename : string := "bsc5.dat".
Definition filenameCompressed : string := (filename ++ ".gz")%string.
Definition url : string :=
  ("http://tdc-www.harvard.edu/catalogs/" ++ filenameCompressed)%string.

Section WithEnvironment.

Variable env : Environment.

Definition download : IO bool :=
  console_log "Downloading BSC5 database..." ;;;
  fun w =>
    match fetch env url with
    | FetchRejects => (None, w)
    | FetchNoBody => (Some false, w)
    | FetchBody body => (pipeToFile filenameCompressed body ;;; ret true) w
    end.

(** The exit status of [gunzip] is awaited and not looked at. *)
Definition uncompress : IO unit :=
  console_log "Uncompressing BSC5 database..." ;;;
  fun w =>
    match run env ["gunzip"; "-q"; "-f"; filenameCompressed] (files w) with
    | Some files' => (Some tt, mkWorld files' (console w))
    | None => (None, w)
    end.

Definition compressedInputfileExists : IO bool := fileExists filenameCompressed.

Definition uncompressedInputfileExists : IO bool := fileExists filename.

(** The first statement of [main]:
    [a || ((b || download()) && uncompress())], the operands evaluated from
    left to right and only as far as needed. *)
Definition acquire : IO unit :=
  a <- uncompressedInputfileExists ;;
  if a then ret tt
  else
    b <- compressedInputfileExists ;;
    c <- (if b then ret true else download) ;;
    if c then uncompress else ret tt.

(** The decimal numeral of a length. *)
Definition numeral (n : nat) : string := NilZero.string_of_uint (Nat.to_uint n).

(** [createMaterials()] runs before the file is read; it changes the document
    in memory only, which is lost when the reading throws, so that the
    document is assembled here once the text is read. *)
Definition main : IO unit :=
  acquire ;;;
  text <- readTextFileSync filename ;;
  let entries := parseArray text in
  let document :=
    assemble (H := binary64 (sin env) (cos env) (exponentiate env))
             (array_elements entries) in
  writeFileSync "starfield.glb" (writeBinary env document) ;;;
  console_log ("Converted " ++ numeral (List.length entries) ++ " entries.")%string.

End WithEnvironment.

(** Two environments in which everything but the network and the commands is
    the same. *)
Definition sameCore (env env' : Environment) : Prop :=
  writeBinary env = writeBinary env' /\ sin env = sin env' /\ cos env = cos env'
  /\ exponentiate env = exponentiate env'.

(** An environment without a usable network or [gunzip]: the server answers
    without a body and no command can be run.  The serializer and the
    engine's functions are stand-ins. *)
Definition offline : Environment :=
  mkEnvironment (fun _ => FetchNoBody) (fun _ _ => None)
                (fun _ => "glb") (fun x => x) (fun x => x) (fun x _ => x).

End Program.

(** * Properties *)

(** ** Strings *)

Module StringFacts.

Lemma substring_zero : forall (n : nat) (s : string), String.substring n 0 s = EmptyString.
Proof.
  induction n as [|n IH]; intros [|c s]; simpl; auto.
Qed.

Lemma substring_append : forall (p x : string) (n m : nat),
  (n + m <= String.length p)%nat ->
  String.substring n m (p ++ x)%string = String.substring n m p.
Proof.
  induction p as [|c p IH]; intros x n m Hle; simpl in Hle.
  - assert (n = O) by lia. assert (m = O) by lia. subst.
    simpl. now rewrite substring_zero.
  - destruct n as [|n]; simpl.
    + destruct m as [|m]; [reflexivity|].
      f_equal. apply IH. simpl. lia.
    + apply IH. lia.
Qed.

Lemma length_append : forall s t : string,
  String.length (s ++ t)%string = (String.length s + String.length t)%nat.
Proof.
  induction s as [|c s IH]; intros t; simpl; [reflexivity|]. now rewrite IH.
Qed.

(** A column that starts past the end of the line is empty. *)
Lemma substring_past_end : forall (l : string) (a b : nat),
  (String.length l <= a)%nat -> (a <= b)%nat -> JS.substring l a b = EmptyString.
Proof.
  intros l a b Hlen Hab. unfold JS.substring.
  rewrite (Nat.min_r a) by lia. rewrite (Nat.min_r b) by lia.
  rewrite Nat.min_id, Nat.max_id, Nat.sub_diag. apply substring_zero.
Qed.

(** A column lying inside a prefix of the line does not see what follows. *)
Lemma substring_prefix : forall (p x : string) (a b : nat),
  (a <= b)%nat -> (b <= String.length p)%nat ->
  JS.substring (p ++ x)%string a b = JS.substring p a b.
Proof.
  intros p x a b Hab Hb. unfold JS.substring. rewrite length_append.
  rewrite !(Nat.min_l a), !(Nat.min_l b) by lia.
  rewrite Nat.max_r by lia.
  apply substring_append. lia.
Qed.

Lemma get_past_end : forall (s : string) (n : nat),
  (String.length s <= n)%nat -> String.get n s = None.
Proof.
  induction s as [|c s IH]; intros n Hn; simpl; [reflexivity|].
  destruct n as [|n]; simpl in *; [lia|]. apply IH. lia.
Qed.

Lemma substring_one : forall (s : string) (n : nat),
  String.substring n 1 s =
  match String.get n s with
  | Some c => String c EmptyString
  | None => EmptyString
  end.
Proof.
  induction s as [|c s IH]; intros [|n]; simpl; try reflexivity.
  - now destruct s.
  - apply IH.
Qed.

(** [l.substring(n, n + 1)] is the code unit at [n], if there is one. *)
Lemma substring_column : forall (l : string) (n : nat),
  JS.substring l n (S n) =
  match String.get n l with
  | Some c => String c EmptyString
  | None => EmptyString
  end.
Proof.
  intros l n. destruct (le_lt_dec (String.length l) n) as [Hshort|Hlong].
  - rewrite substring_past_end by lia. now rewrite get_past_end.
  - unfold JS.substring.
    rewrite !(Nat.min_l n), (Nat.min_l (S n)) by lia.
    rewrite Nat.max_r by lia.
    replace (S n - n)%nat with 1%nat by lia. apply substring_one.
Qed.

Lemma trim_allWhiteSpace : forall s : string,
  allWhiteSpace s = true -> JS.trim s = EmptyString.
Proof.
  unfold JS.trim. induction s as [|c s IH]; simpl; [reflexivity|].
  intros H. apply andb_prop in H as [Hc Hs]. rewrite Hc. now apply IH.
Qed.

End StringFacts.

(** ** The parser *)

Module ParseFacts.

Import StringFacts.

(** Writing at index [length] of an array without holes appends. *)
Lemma array_set_push : forall (A : Type) (acc : list A) (e : A),
  array_set (map Some acc) (List.length acc) e = map Some (acc ++ [e]).
Proof.
  intros A acc e. unfold array_set. rewrite length_map, Nat.ltb_irrefl, Nat.sub_diag.
  simpl. now rewrite map_app.
Qed.

Lemma array_elements_dense : forall (A : Type) (l : list A),
  array_elements (map Some l) = l.
Proof.
  induction l as [|x l IH]; simpl; [reflexivity|]. now rewrite IH.
Qed.

(** The loop invariant: [entries] has no hole and [count] is its length. *)
Lemma parse_loop : forall (lines : list string) (acc : list (starData float)),
  fold_left parseStep lines (map Some acc, List.length acc) =
  (map Some (acc ++ map lineEntry (filter retained lines)),
   List.length (acc ++ map lineEntry (filter retained lines))).
Proof.
  induction lines as [|l lines IH]; intros acc; simpl.
  - now rewrite app_nil_r.
  - assert (R : retained l = negb (someIsNaN (lineEntry l))) by reflexivity.
    rewrite R. unfold parseStep at 1.
    destruct (someIsNaN (lineEntry l)); cbn [negb].
    + apply IH.
    + rewrite array_set_push.
      replace (S (List.length acc)) with (List.length (acc ++ [lineEntry l]))
        by (rewrite length_app; simpl; lia).
      rewrite IH. cbn [map]. rewrite <- app_assoc. reflexivity.
Qed.

Lemma parseArray_dense : forall data : string,
  parseArray data = map Some (map lineEntry (filter retained (JS.split "010" data))).
Proof.
  intros data. unfold parseArray.
  change (@nil (option (starData float)), O)
    with (map (@Some (starData float)) [], List.length (@nil (starData float))).
  now rewrite parse_loop.
Qed.

Lemma parse_filter : forall data : string,
  parse data = map lineEntry (filter retained (JS.split "010" data)).
Proof.
  intros data. unfold parse. rewrite parseArray_dense. apply array_elements_dense.
Qed.

Lemma filter_partition_length : forall (A : Type) (f : A -> bool) (l : list A),
  (List.length (filter f l) + List.length (filter (fun x => negb (f x)) l))%nat
  = List.length l.
Proof.
  induction l as [|x l IH]; simpl; [reflexivity|].
  destruct (f x); simpl; lia.
Qed.

Lemma is_finite_not_nan : forall x : float, is_finite x = true -> JS.isNaN x = false.
Proof.
  intros x. unfold is_finite, JS.isNaN.
  destruct (is_nan x); simpl; [discriminate|reflexivity].
Qed.

Lemma allFinite_retained : forall l : string, allFinite l = true -> retained l = true.
Proof.
  intros l. unfold allFinite, retained, someIsNaN. simpl.
  rewrite !andb_true_iff. intros (H1 & H2 & H3 & H4 & _).
  now rewrite !is_finite_not_nan.
Qed.

(** A line that ends before the magnitude column is skipped. *)
Lemma short_line_skipped : forall l : string,
  (String.length l <= 102)%nat -> retained l = false.
Proof.
  intros l Hlen. unfold retained, someIsNaN, lineEntry. simpl.
  rewrite (substring_past_end l 102 107) by lia.
  change (JS.isNaN (JS.parseFloat EmptyString)) with true.
  now rewrite !orb_true_r.
Qed.

(** The numbers of a line are read from its first 107 columns. *)
Lemma someIsNaN_prefix : forall p x : string,
  (107 <= String.length p)%nat ->
  someIsNaN (lineEntry (p ++ x)%string) = someIsNaN (lineEntry p).
Proof.
  intros p x Hlen.
  unfold someIsNaN, lineEntry, raH, raM, raS, deSign, deDeg, deMin, deSec. simpl.
  now rewrite !(substring_prefix p x) by lia.
Qed.

End ParseFacts.

Import StringFacts ParseFacts.

Local Open Scope float_scope.

(** C3. Every entry of [parse data] comes from a line of [data] whose right
    ascension columns H, M, S and declination columns D, M, S give
    [rightAscension = ((H + M/60 + S/3600) / 24) * 360] and
    [declination = sign * (D + M/60 + S/3600)], where [sign] is [-1] exactly
    when the character of the sign column is ["-"] and [1] otherwise. *)
Theorem parse_coordinates : forall (data : string) (e : starData float),
  In e (parse data) ->
  exists l : string,
    In l (JS.split "010" data) /\
    e = lineEntry l /\
    rightAscension e
      = ((JS.parseFloat (JS.substring l 75 77)
          + JS.parseFloat (JS.substring l 77 79) / 60
          + JS.parseFloat (JS.substring l 79 83) / 3600) / 24) * 360 /\
    declination e
      = (match signColumn l with Some "-"%char => -1 | _ => 1 end)
        * (JS.parseFloat (JS.substring l 84 86)
           + JS.parseFloat (JS.substring l 86 88) / 60
           + JS.parseFloat (JS.substring l 88 90) / 3600).
Proof.
  intros data e Hin. rewrite parse_filter in Hin.
  apply in_map_iff in Hin as (l & <- & Hl). apply filter_In in Hl as [Hl _].
  exists l. repeat split; try assumption.
  unfold lineEntry, deSign, signColumn. simpl. f_equal.
  rewrite substring_column. destruct (String.get 83 l) as [c|]; [|reflexivity].
  destruct (Ascii.eqb_spec c "-") as [->|Hc]; simpl.
  - reflexivity.
  - rewrite (proj2 (Ascii.eqb_neq c "-") Hc).
    destruct c as [[] [] [] [] [] [] [] []]; try reflexivity. now elim Hc.
Qed.

Lemma parse_coordinates_witness :
  In (lineEntry sirius) (parse sirius) /\
  exists l : string,
    In l (JS.split "010" sirius) /\
    lineEntry sirius = lineEntry l /\
    rightAscension (lineEntry sirius)
      = ((JS.parseFloat (JS.substring l 75 77)
          + JS.parseFloat (JS.substring l 77 79) / 60
          + JS.parseFloat (JS.substring l 79 83) / 3600) / 24) * 360 /\
    declination (lineEntry sirius)
      = (match signColumn l with Some "-"%char => -1 | _ => 1 end)
        * (JS.parseFloat (JS.substring l 84 86)
           + JS.parseFloat (JS.substring l 86 88) / 60
           + JS.parseFloat (JS.substring l 88 90) / 3600).
Proof.
  assert (H : In (lineEntry sirius) (parse sirius)) by (vm_compute; left; reflexivity).
  split; [exact H | exact (parse_coordinates sirius (lineEntry sirius) H)].
Defined.

(** The record of the specification's round-trip scenario. *)
Example parse_sirius :
  parse sirius =
  [mkStarData 1 101.28708333333334 (-16.716111111111111) (-1.46) (Some "A"%char) "Alp CMa"].
Proof. vm_compute. reflexivity. Qed.

(** C4 (as amended). [parse] keeps exactly the lines none of whose four
    numbers is [NaN], in the order of the lines: the entries are the tuples of
    the retained lines, their number is the number of lines minus the number
    of skipped lines, and the returned array has no hole. *)
Theorem parse_count_order : forall data : string,
  parse data = map lineEntry (filter retained (JS.split "010" data)) /\
  List.length (parse data)
    = (List.length (JS.split "010" data)
       - List.length (filter (fun l => negb (retained l)) (JS.split "010" data)))%nat /\
  parseArray data = map Some (parse data).
Proof.
  intros data. rewrite parseArray_dense, parse_filter. repeat split.
  rewrite length_map.
  pose proof (filter_partition_length string retained (JS.split "010" data)). lia.
Qed.

(** C4, counterexample: the one line of [siriusOverflow] has a magnitude that
    is not finite ([9e999] reads as [Infinity]), and [parse] keeps it: one
    entry, where the lines less those with a number that is not finite are
    none. *)
Lemma parse_keeps_infinite_magnitude :
  List.length (JS.split "010" siriusOverflow) = 1%nat /\
  List.length (filter (fun l => negb (allFinite l)) (JS.split "010" siriusOverflow)) = 1%nat /\
  List.length (parse siriusOverflow) = 1%nat /\
  map magnitude (parse siriusOverflow) = [infinity].
Proof. vm_compute. repeat split. Qed.

(** C9. A line whose four numbers are finite and whose spectral type columns
    are blank is kept, its entry has no spectral class, and the decision to
    skip a line does not look at what follows the magnitude column. *)
Theorem blank_spectral_type_retained : forall (data l : string),
  In l (JS.split "010" data) ->
  allFinite l = true ->
  allWhiteSpace (JS.substring l 127 147) = true ->
  In (lineEntry l) (parse data) /\
  spectralClass (lineEntry l) = None /\
  (forall p x y : string,
     (107 <= String.length p)%nat ->
     retained (p ++ x)%string = retained (p ++ y)%string).
Proof.
  intros data l Hl Hfin Hblank. repeat split.
  - rewrite parse_filter. apply in_map, filter_In. split; [assumption|].
    now apply allFinite_retained.
  - unfold lineEntry. simpl. now rewrite trim_allWhiteSpace.
  - intros p x y Hp. unfold retained. now rewrite !someIsNaN_prefix.
Qed.

Lemma blank_spectral_type_retained_witness :
  In (lineEntry siriusNoType) (parse siriusNoType) /\
  spectralClass (lineEntry siriusNoType) = None /\
  (forall p x y : string,
     (107 <= String.length p)%nat ->
     retained (p ++ x)%string = retained (p ++ y)%string).
Proof.
  apply (blank_spectral_type_retained siriusNoType siriusNoType).
  - vm_compute. left. reflexivity.
  - vm_compute. reflexivity.
  - vm_compute. reflexivity.
Defined.

(** C10 (as amended). [parse] returns an array for every input; the empty
    string gives the empty sequence; a line of at most 102 characters ends
    before the magnitude column, so that its magnitude is [NaN] and the line
    is skipped, and a text of such lines gives the empty sequence. *)
Theorem parse_short_lines : forall data : string,
  (forall l : string, In l (JS.split "010" data) -> (String.length l <= 102)%nat) ->
  (forall l : string,
     In l (JS.split "010" data) ->
     JS.isNaN (magnitude (lineEntry l)) = true /\ retained l = false) /\
  parse data = [] /\ parseArray data = [] /\ parse EmptyString = [].
Proof.
  intros data Hshort.
  assert (Hnone : filter retained (JS.split "010" data) = []).
  { induction (JS.split "010" data) as [|l ls IH]; [reflexivity|].
    simpl. rewrite short_line_skipped by (apply Hshort; now left).
    apply IH. intros l' Hl'. apply Hshort. now right. }
  rewrite parseArray_dense, parse_filter, Hnone. repeat split.
  - unfold lineEntry. cbn [magnitude].
    now rewrite (substring_past_end l 102 107) by (try apply Hshort; auto; lia).
  - now apply short_line_skipped, Hshort.
Qed.

Lemma parse_short_lines_witness :
  parse (spaces 102 ++ String "010" "   1 Alp CMa")%string = [] /\
  parseArray (spaces 102 ++ String "010" "   1 Alp CMa")%string = [] /\
  parse EmptyString = [].
Proof.
  apply parse_short_lines. intros l Hl. vm_compute in Hl.
  destruct Hl as [<-|[<-|[]]]; vm_compute; lia.
Defined.

(** C10, counterexample: a line of 103 characters, shorter than the 147
    columns of the layout, whose numbers all parse, is kept. *)
Lemma parse_keeps_short_line :
  String.length siriusCut = 103%nat /\
  parse siriusCut
  = [mkStarData 1 101.28708333333334 (-16.716111111111111) 5 None "Alp CMa"].
Proof. vm_compute. split; reflexivity. Qed.

(** ** The glTF document *)

Module DocumentFacts.

Lemma modify_last : forall (A : Type) (f : A -> A) (l : list A) (x : A),
  modify (List.length l) f (l ++ [x]) = l ++ [f x].
Proof.
  induction l as [|y l IH]; intros x; simpl; [reflexivity|]. now rewrite IH.
Qed.

Ltac doc_step :=
  cbn [buffers accessors materials primitives meshes nodes scenes attributes material mode
       meshPrimitives nodeMesh nodeScale nodeRotation nodeTranslation nodeExtras
       accessorType accessorArray dict_set app];
  rewrite ?modify_last;
  cbn [buffers accessors materials primitives meshes nodes scenes attributes material mode
       meshPrimitives nodeMesh nodeScale nodeRotation nodeTranslation nodeExtras
       accessorType accessorArray dict_set app].

Section Render.

Context {T : Type} `{Number T}.

(** The scratch quaternions are written before they are read: the transform of
    a star does not depend on what they held. *)
Lemma starTransform_scratch : forall (q1 q2 q : Quat T) (ra de mag : T),
  snd (starTransform q1 q2 q ra de mag) = computeTransform ra de mag.
Proof. reflexivity. Qed.

Lemma starTransform_eq : forall (q1 q2 q : Quat T) (ra de mag : T),
  starTransform q1 q2 q ra de mag
  = (setFromAxisAngle q1 Vec3_UP ra, setFromAxisAngle q2 Vec3_RIGHT de,
     mul2 q (setFromAxisAngle q1 Vec3_UP ra) (setFromAxisAngle q2 Vec3_RIGHT de),
     computeTransform ra de mag).
Proof. reflexivity. Qed.

Lemma renderStar_doc : forall (palette : Dict nat) (acc : nat) (doc : Document T)
    (q1 q2 q : Quat T) (star : starData T),
  exists q1' q2' q' : Quat T,
    renderStar palette acc (doc, q1, q2, q) star
    = (afterStar palette acc doc star, q1', q2', q').
Proof.
  intros palette acc [bf ac ma pr me no sn] q1 q2 q [b ra de mag sc nm].
  unfold renderStar. rewrite starTransform_eq.
  unfold afterStar, starNode, starPrimitive.
  cbn [bsn rightAscension declination magnitude spectralClass name].
  destruct (computeTransform ra de mag) as [[rotation scales] translation].
  do 3 eexists.
  cbn [createPrimitive createMesh createNode fst snd primitives meshes nodes].
  unfold withPrimitives. doc_step.
  unfold setAttribute, withPrimitives. doc_step.
  unfold setMaterial, withPrimitives. doc_step.
  unfold setMode, withPrimitives. doc_step.
  unfold withMeshes. doc_step.
  unfold addPrimitive, withMeshes. doc_step.
  unfold withNodes. doc_step.
  unfold setMesh, withNodes. doc_step.
  unfold setScale, withNodes. doc_step.
  unfold setRotation, withNodes. doc_step.
  unfold setTranslation, withNodes. doc_step.
  unfold setNodeExtras, withNodes. doc_step.
  unfold addChild, withScenes. doc_step.
  reflexivity.
Qed.

Lemma render_fold : forall (palette : Dict nat) (acc : nat) (entries : list (starData T))
    (doc : Document T) (q1 q2 q : Quat T),
  documentOf (fold_left (renderStar palette acc) entries (doc, q1, q2, q))
  = fold_left (afterStar palette acc) entries doc.
Proof.
  induction entries as [|star entries IH]; intros doc q1 q2 q; [reflexivity|].
  cbn [fold_left].
  destruct (renderStar_doc palette acc doc q1 q2 q star) as (q1' & q2' & q' & ->).
  apply IH.
Qed.

(** What the loop leaves in each part of the document. *)
Lemma afterStars_fixed : forall (palette : Dict nat) (acc : nat)
    (entries : list (starData T)) (doc : Document T),
  let doc' := fold_left (afterStar palette acc) entries doc in
  buffers doc' = buffers doc /\ accessors doc' = accessors doc
  /\ materials doc' = materials doc.
Proof.
  induction entries as [|star entries IH]; intros doc; [now repeat split|].
  cbn [fold_left]. cbv zeta in IH |- *.
  destruct (IH (afterStar palette acc doc star)) as (-> & -> & ->). now repeat split.
Qed.

Lemma afterStars_primitives : forall (palette : Dict nat) (acc : nat)
    (entries : list (starData T)) (doc : Document T),
  primitives (fold_left (afterStar palette acc) entries doc)
  = primitives doc ++ map (starPrimitive palette acc) entries.
Proof.
  induction entries as [|star entries IH]; intros doc; cbn [fold_left map].
  - now rewrite app_nil_r.
  - rewrite IH. cbn [afterStar primitives]. now rewrite <- app_assoc.
Qed.

Lemma afterStars_meshes : forall (palette : Dict nat) (acc : nat)
    (entries : list (starData T)) (doc : Document T),
  meshes (fold_left (afterStar palette acc) entries doc)
  = meshes doc
    ++ map (fun i => mkMesh [i]) (seq (List.length (primitives doc)) (List.length entries)).
Proof.
  induction entries as [|star entries IH]; intros doc; cbn [fold_left map seq List.length].
  - now rewrite app_nil_r.
  - rewrite IH. cbn [afterStar primitives meshes].
    rewrite length_app, Nat.add_1_r, <- app_assoc. reflexivity.
Qed.

Lemma afterStars_nodes : forall (palette : Dict nat) (acc : nat)
    (entries : list (starData T)) (doc : Document T),
  nodes (fold_left (afterStar palette acc) entries doc)
  = nodes doc
    ++ map (fun ie => starNode (fst ie) (snd ie))
           (combine (seq (List.length (meshes doc)) (List.length entries)) entries).
Proof.
  induction entries as [|star entries IH]; intros doc;
    cbn [fold_left map seq List.length combine].
  - now rewrite app_nil_r.
  - rewrite IH. cbn [afterStar nodes meshes fst snd].
    rewrite length_app, Nat.add_1_r, <- app_assoc. reflexivity.
Qed.

Lemma afterStars_scenes : forall (palette : Dict nat) (acc : nat)
    (entries : list (starData T)) (doc : Document T) (s : Scene) (rest : list Scene),
  scenes doc = s :: rest ->
  scenes (fold_left (afterStar palette acc) entries doc)
  = mkScene (children s ++ seq (List.length (nodes doc)) (List.length entries)) :: rest.
Proof.
  induction entries as [|star entries IH]; intros doc s rest Hs;
    cbn [fold_left seq List.length].
  - rewrite app_nil_r. now destruct s.
  - rewrite (IH _ (mkScene (children s ++ [List.length (nodes doc)])) rest).
    + cbn [afterStar nodes children]. rewrite length_app, Nat.add_1_r, <- app_assoc.
      reflexivity.
    + cbn [afterStar scenes]. now rewrite Hs.
Qed.

(** The document in which the loop of [render] starts: one more buffer and
    the accessor of the octagon. *)
Lemma render_unfold : forall (entries : list (starData T)) (palette : Dict nat)
    (doc : Document T),
  exists array : list T,
    render entries palette doc
    = fold_left (afterStar palette (List.length (accessors doc))) entries
        (mkDocument (S (buffers doc)) (accessors doc ++ [mkAccessor "VEC3" array])
                    (materials doc) (primitives doc) (meshes doc) (nodes doc) (scenes doc)).
Proof.
  intros entries palette [bf ac ma pr me no sn]. eexists. unfold render, renderState.
  cbn [createBuffer createAccessor fst snd buffers accessors materials primitives meshes
       nodes scenes].
  unfold withAccessors. doc_step.
  unfold setType, withAccessors. doc_step.
  unfold setArray, withAccessors. doc_step.
  match goal with
  | |- ?lhs = ?rhs =>
      match lhs with
      | context [fold_left ?f ?l ?st] => change (documentOf (fold_left f l st) = rhs)
      end
  end.
  apply render_fold.
Qed.

(** The palette and the document [createMaterials] leaves. *)
Lemma createMaterials_eq :
  createMaterials (gltfDocument (T := T))
  = (combine starClasses (seq 0 10),
     mkDocument 0 [] (map materialFor starClasses) [] [] [] [mkScene []]).
Proof. reflexivity. Qed.

Lemma palette_lookup : forall sc : option ascii,
  isStarClass sc = true ->
  exists k : nat,
    dict_get (combine starClasses (seq 0 10)) (propertyKey sc) = Some k /\
    (k < 10)%nat /\
    option_map (@materialClass T) (nth_error (map materialFor starClasses) k)
    = Some (Some (propertyKey sc)).
Proof.
  intros sc Hsc. unfold isStarClass, starClasses in Hsc. cbn [existsb] in Hsc.
  repeat (apply orb_prop in Hsc as [Hsc|Hsc]); try discriminate;
    apply String.eqb_eq in Hsc; rewrite Hsc;
    eexists; (split; [reflexivity|split; [|reflexivity]]); lia.
Qed.

Lemma palette_miss : forall sc : option ascii,
  isStarClass sc = false ->
  dict_get (combine starClasses (seq 0 10)) (propertyKey sc) = None.
Proof.
  intros sc Hsc. unfold isStarClass, starClasses in Hsc. cbn [existsb] in Hsc.
  repeat (apply orb_false_elim in Hsc as [?E Hsc]).
  cbn [starClasses combine seq dict_get].
  repeat (rewrite String.eqb_sym; match goal with E : _ = false |- _ => rewrite E; clear E end).
  reflexivity.
Qed.

Lemma starNode_parts : forall (i : nat) (e : starData T),
  nodeMesh (starNode i e) = Some i /\
  nodeExtras (starNode i e) = Some (mkNodeExtras (magnitude e) (bsn e) (name e)) /\
  nodeTransform (starNode i e)
  = computeTransform (rightAscension e) (declination e) (magnitude e).
Proof.
  intros i e. unfold starNode, nodeTransform.
  destruct (computeTransform (rightAscension e) (declination e) (magnitude e))
    as [[rotation scales] translation].
  now repeat split.
Qed.

Lemma starNodes_map : forall (A : Type) (f : Node T -> A) (g : nat -> starData T -> A)
    (entries : list (starData T)) (n : nat),
  (forall i e, f (starNode i e) = g i e) ->
  map f (map (fun ie => starNode (fst ie) (snd ie))
             (combine (seq n (List.length entries)) entries))
  = map (fun ie => g (fst ie) (snd ie)) (combine (seq n (List.length entries)) entries).
Proof.
  intros A f g entries n Hfg. rewrite map_map. apply map_ext. intros [i e]. apply Hfg.
Qed.

Lemma map_fst_combine_seq : forall (A B : Type) (g : nat -> B) (l : list A) (n : nat),
  map (fun ie => g (fst ie)) (combine (seq n (List.length l)) l)
  = map g (seq n (List.length l)).
Proof.
  induction l as [|x l IH]; intros n; cbn [List.length seq combine map]; [reflexivity|].
  now rewrite IH.
Qed.

Lemma map_snd_combine_seq : forall (A B : Type) (g : A -> B) (l : list A) (n : nat),
  map (fun ie => g (snd ie)) (combine (seq n (List.length l)) l) = map g l.
Proof.
  induction l as [|x l IH]; intros n; cbn [List.length seq combine map]; [reflexivity|].
  now rewrite IH.
Qed.

(** The parts of the document [assemble] returns. *)
Lemma assemble_parts : forall entries : list (starData T),
  let doc := assemble entries in
  let palette := combine starClasses (seq 0 10) in
  List.length (accessors doc) = 1%nat /\
  materials doc = map materialFor starClasses /\
  primitives doc = map (starPrimitive palette 0) entries /\
  meshes doc = map (fun i => mkMesh [i]) (seq 0 (List.length entries)) /\
  nodes doc
  = map (fun ie => starNode (fst ie) (snd ie))
        (combine (seq 0 (List.length entries)) entries) /\
  scenes doc = [mkScene (seq 0 (List.length entries))].
Proof.
  intros entries. cbv zeta. unfold assemble. rewrite createMaterials_eq.
  destruct (render_unfold entries (combine starClasses (seq 0 10))
              (mkDocument 0 [] (map materialFor starClasses) [] [] [] [mkScene []]))
    as [array ->].
  cbn [accessors buffers materials primitives meshes nodes scenes List.length].
  match goal with |- context [fold_left ?f entries ?d] =>
    pose proof (afterStars_fixed (combine starClasses (seq 0 10)) 0 entries d) as Hfix;
    pose proof (afterStars_primitives (combine starClasses (seq 0 10)) 0 entries d) as Hp;
    pose proof (afterStars_meshes (combine starClasses (seq 0 10)) 0 entries d) as Hm;
    pose proof (afterStars_nodes (combine starClasses (seq 0 10)) 0 entries d) as Hn;
    pose proof (afterStars_scenes (combine starClasses (seq 0 10)) 0 entries d
                  (mkScene []) [] eq_refl) as Hs
  end.
  cbv zeta in Hfix. destruct Hfix as (_ & Ha & Hmat).
  rewrite Ha, Hmat, Hp, Hm, Hn, Hs. now repeat split.
Qed.

End Render.

End DocumentFacts.

Import DocumentFacts.

(** ** The scene assembler *)

(** A star whose class is none of the ten letters gets a primitive without a
    material; the node is created all the same. *)
Lemma unknown_class_no_material : forall (T : Type) (N : Number T)
    (entries : list (starData T)),
  forallb (fun e => negb (isStarClass (spectralClass e))) entries = true ->
  map material (primitives (assemble entries)) = map (fun _ => None) entries /\
  List.length (nodes (assemble entries)) = List.length entries.
Proof.
  intros T N entries Hcls.
  destruct (assemble_parts entries) as (_ & _ & Hp & _ & Hn & _).
  rewrite Hp, Hn. split.
  - rewrite map_map. apply map_ext_in. intros e He. cbn [starPrimitive material].
    apply palette_miss. rewrite forallb_forall in Hcls.
    now apply negb_true_iff, Hcls.
  - now rewrite length_map, length_combine, length_seq, Nat.min_id.
Qed.

(** C1, the code at a star of class N: the carbon star's line is kept by
    [parse] with the class ["N"], the palette has no property ["N"], and [main]
    creates the star's node but leaves its primitive without a material, where
    the specification asks for the white descriptor. *)
Theorem carbon_star_has_no_material :
  forall (sin cos : float -> float) (exponentiate : float -> float -> float),
  map spectralClass (parse carbonStar) = [Some "N"%char] /\
  dict_get (fst (createMaterials (H := binary64 sin cos exponentiate) gltfDocument)) "N"
  = None /\
  map material (primitives (main sin cos exponentiate carbonStar)) = [None] /\
  List.length (nodes (main sin cos exponentiate carbonStar)) = 1%nat.
Proof.
  intros sin cos exponentiate. unfold main.
  assert (Hparse : map spectralClass (parse carbonStar) = [Some "N"%char])
    by (vm_compute; reflexivity).
  split; [exact Hparse|]. split; [reflexivity|].
  destruct (parse carbonStar) as [|e [|e' rest]]; try discriminate.
  injection Hparse as Hsc.
  apply (unknown_class_no_material float (binary64 sin cos exponentiate) [e]).
  cbn [forallb]. now rewrite Hsc.
Qed.

(** C2. For every sequence of N records the scene has exactly N children,
    the nodes in catalog order; node [i] carries the metadata of record [i] and
    has mesh [i], whose one primitive reads its positions from accessor 0, the
    only accessor of the document, so that the octagon is shared and never
    copied; the document has ten materials, and the primitive of a record
    whose class is one of the ten letters has one of them, the one of the
    record's class. *)
Theorem assemble_shares_geometry : forall (T : Type) (N : Number T)
    (entries : list (starData T)),
  map children (scenes (assemble entries)) = [seq 0 (List.length entries)] /\
  List.length (nodes (assemble entries)) = List.length entries /\
  map nodeMesh (nodes (assemble entries)) = map Some (seq 0 (List.length entries)) /\
  map nodeExtras (nodes (assemble entries))
  = map (fun e => Some (mkNodeExtras (magnitude e) (bsn e) (name e))) entries /\
  map meshPrimitives (meshes (assemble entries))
  = map (fun i => [i]) (seq 0 (List.length entries)) /\
  map attributes (primitives (assemble entries))
  = map (fun _ => [("POSITION", 0%nat)]) entries /\
  List.length (accessors (assemble entries)) = 1%nat /\
  List.length (materials (assemble entries)) = 10%nat /\
  Forall2
    (fun e p =>
       isStarClass (spectralClass e) = true ->
       exists k : nat,
         material p = Some k /\ (k < 10)%nat /\
         option_map (@materialClass T) (nth_error (materials (assemble entries)) k)
         = Some (Some (propertyKey (spectralClass e))))
    entries (primitives (assemble entries)).
Proof.
  intros T N entries.
  destruct (assemble_parts entries) as (Ha & Hmat & Hp & Hm & Hn & Hs).
  rewrite Ha, Hmat, Hp, Hm, Hn, Hs. clear Ha Hmat Hp Hm Hn Hs.
  split; [reflexivity|].
  split; [now rewrite length_map, length_combine, length_seq, Nat.min_id|].
  split.
  { rewrite (starNodes_map _ nodeMesh (fun i _ => Some i))
      by (intros; apply starNode_parts).
    apply (map_fst_combine_seq _ _ (@Some nat)). }
  split.
  { rewrite (starNodes_map _ nodeExtras
               (fun _ e => Some (mkNodeExtras (magnitude e) (bsn e) (name e))))
      by (intros; apply starNode_parts).
    apply (map_snd_combine_seq _ _
             (fun e => Some (mkNodeExtras (magnitude e) (bsn e) (name e)))). }
  split; [now rewrite map_map|]. split; [now rewrite map_map|].
  split; [reflexivity|]. split; [reflexivity|].
  induction entries as [|e entries IH]; cbn [map]; constructor; [|exact IH].
  intros He. cbn [starPrimitive material]. now apply palette_lookup.
Qed.

Lemma assemble_shares_geometry_witness :
  forallb (fun e => isStarClass (spectralClass e)) sampleStars = true /\
  map children (scenes (assemble (H := exact) sampleStars)) = [[0; 1; 2]%nat] /\
  map meshPrimitives (meshes (assemble (H := exact) sampleStars)) = [[0]; [1]; [2]]%nat /\
  map attributes (primitives (assemble (H := exact) sampleStars))
  = [[("POSITION", 0%nat)]; [("POSITION", 0%nat)]; [("POSITION", 0%nat)]] /\
  List.length (accessors (assemble (H := exact) sampleStars)) = 1%nat.
Proof.
  split; [reflexivity|].
  pose proof (assemble_shares_geometry R exact sampleStars)
    as (Hchildren & _ & _ & _ & Hmeshes & Hattributes & Haccessors & _).
  repeat split; assumption.
Defined.

(** C7. A star's rounded rotation, scale and translation are those of
    [computeTransform] at its own right ascension, declination and magnitude:
    whatever the scratch quaternions hold when the iteration starts, whatever
    stars came before and whatever the palette and the document are.  So two
    stars with the same three numbers, at any places of any two sequences,
    get the same rotation, scale and translation. *)
Theorem transform_determined_by_inputs : forall (T : Type) (N : Number T),
  (forall (q1 q2 q q1' q2' q' : Quat T) (ra de mag : T),
     snd (starTransform q1 q2 q ra de mag) = snd (starTransform q1' q2' q' ra de mag)) /\
  (forall (entries : list (starData T)) (palette : Dict nat) (doc : Document T),
     map nodeTransform (skipn (List.length (nodes doc)) (nodes (render entries palette doc)))
     = map (fun e => computeTransform (rightAscension e) (declination e) (magnitude e))
           entries) /\
  (forall (entries entries' : list (starData T)) (palette palette' : Dict nat)
          (doc doc' : Document T) (i j : nat) (e e' : starData T),
     nth_error entries i = Some e ->
     nth_error entries' j = Some e' ->
     rightAscension e = rightAscension e' ->
     declination e = declination e' ->
     magnitude e = magnitude e' ->
     nth_error (map nodeTransform (nodes (render entries palette doc)))
               (List.length (nodes doc) + i)
     = nth_error (map nodeTransform (nodes (render entries' palette' doc')))
                 (List.length (nodes doc') + j)).
Proof.
  intros T N.
  assert (Hnodes : forall (entries : list (starData T)) (palette : Dict nat)
                          (doc : Document T),
    map nodeTransform (nodes (render entries palette doc))
    = map nodeTransform (nodes doc)
      ++ map (fun e => computeTransform (rightAscension e) (declination e) (magnitude e))
             entries).
  { intros entries palette doc.
    destruct (render_unfold entries palette doc) as [array ->].
    rewrite afterStars_nodes. cbn [nodes meshes]. rewrite map_app. f_equal.
    rewrite (starNodes_map _ nodeTransform
               (fun _ e => computeTransform (rightAscension e) (declination e) (magnitude e)))
      by (intros; apply starNode_parts).
    apply (map_snd_combine_seq _ _
             (fun e => computeTransform (rightAscension e) (declination e) (magnitude e))). }
  split; [|split].
  - intros. now rewrite !starTransform_scratch.
  - intros entries palette doc.
    rewrite <- (length_map nodeTransform (nodes doc)), <- skipn_map, Hnodes.
    now rewrite skipn_app, skipn_all, Nat.sub_diag.
  - intros entries entries' palette palette' doc doc' i j e e' Hi Hj Hra Hde Hmag.
    rewrite !Hnodes, <- !(length_map nodeTransform).
    rewrite !nth_error_app2 by lia.
    replace (_ + i - _)%nat with i by lia. replace (_ + j - _)%nat with j by lia.
    rewrite !nth_error_map, Hi, Hj. cbn. now rewrite Hra, Hde, Hmag.
Qed.

Lemma transform_determined_by_inputs_witness :
  nth_error (map nodeTransform (nodes (render (H := exact) sampleStars [] gltfDocument)))
            (List.length (nodes (gltfDocument (T := R))) + 0)
  = nth_error (map nodeTransform (nodes (render (H := exact) sampleStars [] gltfDocument)))
              (List.length (nodes (gltfDocument (T := R))) + 2).
Proof.
  apply (proj2 (proj2 (transform_determined_by_inputs R exact))
           sampleStars sampleStars [] [] gltfDocument gltfDocument 0%nat 2%nat
           (mkStarData 1 101 (-16) (-1) (Some "A"%char) "Alp CMa")%R
           (mkStarData 3 101 (-16) (-1) (Some "K"%char) "twin")%R);
    reflexivity.
Defined.

(** C8. [createMaterials] creates ten materials, one for each letter of
    OWBAFGKMCS and under that letter in the palette, whatever the catalog
    holds (it reads none); the ten are distinct; each has the color of the
    table with every channel squared as emissive and as base color, the
    channels in the unit interval, alpha 1, metallic 0, roughness 1 and the
    class letter in its extras. *)
Theorem palette_descriptors :
  forall (sin cos : float -> float) (exponentiate : float -> float -> float),
  fst (createMaterials (H := binary64 sin cos exponentiate) gltfDocument)
  = [("O", 0); ("W", 1); ("B", 2); ("A", 3); ("F", 4);
     ("G", 5); ("K", 6); ("M", 7); ("C", 8); ("S", 9)]%nat /\
  materials (snd (createMaterials (H := binary64 sin cos exponentiate) gltfDocument))
  = map descriptorOf starClasses /\
  List.length
    (materials (snd (createMaterials (H := binary64 sin cos exponentiate) gltfDocument)))
  = 10%nat /\
  NoDup (materials (snd (createMaterials (H := binary64 sin cos exponentiate) gltfDocument))) /\
  forallb channelsInUnitInterval
    (materials (snd (createMaterials (H := binary64 sin cos exponentiate) gltfDocument)))
  = true.
Proof.
  intros sin cos exponentiate.
  assert (Hm : materials (snd (createMaterials (H := binary64 sin cos exponentiate)
                                 gltfDocument))
               = map descriptorOf starClasses) by (vm_compute; reflexivity).
  split; [reflexivity|]. rewrite Hm.
  split; [reflexivity|]. split; [reflexivity|]. split.
  - apply (NoDup_map_inv (@materialClass float)).
    vm_compute. repeat constructor; cbn; intuition discriminate.
  - vm_compute. reflexivity.
Qed.

(** ** Exact arithmetic: the geometry of the transform *)

Module GeometryFacts.

Local Open Scope R_scope.
#[local] Existing Instance exact.

Lemma int_exact : forall n : Z, int n = IZR n.
Proof. intros n. unfold int. cbn. ring. Qed.

(** [toFixed] moves a number by at most half a unit of the last decimal. *)
Lemma roundDecimals_error : forall (x : R) (digits : nat),
  Rabs (roundDecimals x digits - x) <= / 2 / 10 ^ digits.
Proof.
  intros x digits.
  assert (Hpos : 0 < 10 ^ digits) by (apply pow_lt; lra).
  assert (Hnear : forall y : R, Rabs (IZR (nearestInteger y) - y) <= / 2).
  { intros y. unfold nearestInteger.
    destruct (base_Int_part (y + / 2)) as [Hle Hgt].
    apply Rabs_le. lra. }
  unfold roundDecimals. destruct (Rlt_dec x 0) as [Hneg|Hnonneg].
  - replace (- (IZR (nearestInteger (- x * 10 ^ digits)) / 10 ^ digits) - x)
      with (- ((IZR (nearestInteger (- x * 10 ^ digits)) - - x * 10 ^ digits) / 10 ^ digits))
      by (field; lra).
    rewrite Rabs_Ropp. unfold Rdiv at 1. rewrite Rabs_mult, (Rabs_pos_eq (/ 10 ^ digits)).
    + apply Rmult_le_compat_r; [|apply Hnear].
      left. now apply Rinv_0_lt_compat.
    + left. now apply Rinv_0_lt_compat.
  - replace (IZR (nearestInteger (x * 10 ^ digits)) / 10 ^ digits - x)
      with ((IZR (nearestInteger (x * 10 ^ digits)) - x * 10 ^ digits) / 10 ^ digits)
      by (field; lra).
    unfold Rdiv at 1. rewrite Rabs_mult, (Rabs_pos_eq (/ 10 ^ digits)).
    + apply Rmult_le_compat_r; [|apply Hnear].
      left. now apply Rinv_0_lt_compat.
    + left. now apply Rinv_0_lt_compat.
Qed.

Lemma starRotation_unit : forall ra de : R,
  let q := starRotation ra de in
  qx q * qx q + qy q * qy q + qz q * qz q + qw q * qw q = 1.
Proof.
  intros ra de. cbv zeta. unfold starRotation, mul2, setFromAxisAngle, Vec3_UP, Vec3_RIGHT.
  cbn [qx qy qz qw vx vy vz set_qx set_qy set_qz set_qw].
  rewrite !int_exact. cbn [add sub mul div neg Math_sin Math_cos exact].
  set (a := ra * _). set (b := de * _).
  pose proof (sin2_cos2 a) as Ha. pose proof (sin2_cos2 b) as Hb. unfold Rsqr in Ha, Hb.
  replace (_ + _ + _ + _)
    with ((sin a * sin a + cos a * cos a) * (sin b * sin b + cos b * cos b)) by ring.
  rewrite Ha, Hb. ring.
Qed.







Lemma Rabs_bound : forall a b : R, Rabs a <= b -> - b <= a <= b.
Proof.
  intros a b Hab. unfold Rabs in Hab. destruct (Rcase_abs a); lra.
Qed.


End GeometryFacts.

Import GeometryFacts.


(** C6 (as amended). In exact arithmetic the scale [4 ** ((6 - m) / 4) / 15]
    is strictly larger for the smaller of two magnitudes; in every arithmetic
    the node's scale is one number, the scale rounded to two decimals, on all
    three axes. *)
Theorem scale_decreasing_exact : forall m1 m2 : R,
  (m1 < m2)%R ->
  (starScale (H := exact) m2 < starScale (H := exact) m1)%R /\
  (forall (T : Type) (N : Number T) (ra de mag : T),
     snd (fst (computeTransform ra de mag))
     = (parseFloat_toFixed (starScale mag) 2,
        parseFloat_toFixed (starScale mag) 2,
        parseFloat_toFixed (starScale mag) 2)).
Proof.
  intros m1 m2 Hlt. split; [|reflexivity].
  unfold starScale. rewrite !int_exact. cbn [pow sub div exact].
  apply Rmult_lt_compat_r; [lra|].
  apply Rpower_lt; lra.
Qed.

Lemma scale_decreasing_exact_witness :
  (starScale (H := exact) 6 < starScale (H := exact) (-146 / 100))%R.
Proof.
  apply (scale_decreasing_exact (-146 / 100) 6). lra.
Defined.

(** C6, counterexample: in binary64 arithmetic [6 - 1e-99] is [6], so the
    magnitudes 0 and 1e-99, which [parse] reads from the columns ["0"] and
    ["1e-99"], get the same scale, whatever [**] computes. *)
Lemma scale_not_strict_binary64 :
  map magnitude (parse (catalogLine "   1" "Alp CMa" "064508.9-164258" "0" "A0"))
  = [0%float] /\
  map magnitude (parse (catalogLine "   1" "Alp CMa" "064508.9-164258" "1e-99" "A0"))
  = [1e-99%float] /\
  (0 <? 1e-99)%float = true /\
  (forall (sin cos : float -> float) (exponentiate : float -> float -> float),
     starScale (H := binary64 sin cos exponentiate) 0%float
     = starScale (H := binary64 sin cos exponentiate) 1e-99%float).
Proof.
  split; [vm_compute; reflexivity|]. split; [vm_compute; reflexivity|].
  split; [vm_compute; reflexivity|].
  intros sin cos exponentiate. vm_compute. reflexivity.
Qed.

(** * Further properties *)

(** ** Not-a-number in binary64 arithmetic *)

Module NaNFacts.

Local Open Scope float_scope.

Lemma SFcompare_refl_finite : forall (s : bool) (m : positive) (e : Z),
  SFcompare (S754_finite s m e) (S754_finite s m e) = Some Eq.
Proof.
  intros s m e. unfold SFcompare. destruct s; rewrite Z.compare_refl;
    now rewrite ?Pos.compare_cont_refl, ?Pos.compare_refl.
Qed.

(** There is one [NaN]. *)
Lemma isNaN_eq : forall x : float, JS.isNaN x = true -> x = nan.
Proof.
  intros x Hx. unfold JS.isNaN, is_nan in Hx. rewrite eqb_spec in Hx.
  rewrite <- (SF2Prim_Prim2SF x).
  destruct (Prim2SF x) as [s| s| |s m e]; try reflexivity; exfalso.
  - now destruct s.
  - now destruct s.
  - unfold SFeqb in Hx. now rewrite SFcompare_refl_finite in Hx.
Qed.

Lemma Prim2SF_nan : Prim2SF nan = S754_nan.
Proof. reflexivity. Qed.

Ltac nan_op spec :=
  intros;
  match goal with |- ?lhs = _ => rewrite <- (SF2Prim_Prim2SF lhs) end;
  rewrite spec, ?Prim2SF_nan;
  match goal with |- context [Prim2SF ?y] => now destruct (Prim2SF y) | _ => reflexivity end.

Lemma add_nan_l : forall y : float, nan + y = nan.
Proof. nan_op add_spec. Qed.

Lemma add_nan_r : forall x : float, x + nan = nan.
Proof. nan_op add_spec. Qed.

Lemma mul_nan_l : forall y : float, nan * y = nan.
Proof. nan_op mul_spec. Qed.

Lemma mul_nan_r : forall x : float, x * nan = nan.
Proof. nan_op mul_spec. Qed.

Lemma div_nan_l : forall y : float, nan / y = nan.
Proof. nan_op div_spec. Qed.

End NaNFacts.

(** ** The parser, line by line *)

Module LineFacts.

Import StringFacts ParseFacts NaNFacts.

Lemma trimStart_allWhiteSpace : forall s : string,
  allWhiteSpace s = true -> JS.trimStart s = EmptyString.
Proof.
  induction s as [|c s IH]; simpl; [reflexivity|].
  intros H. apply andb_prop in H as [-> Hs]. now apply IH.
Qed.

(** A blank column reads as [NaN]. *)
Lemma parse_blank : forall s : string,
  allWhiteSpace s = true -> JS.parseFloat s = nan /\ JS.parseInt s = nan.
Proof.
  intros s Hs. unfold JS.parseFloat, JS.parseInt.
  rewrite (trimStart_allWhiteSpace s Hs). split; reflexivity.
Qed.

Lemma blank_number_skipped : forall l : string,
  hasBlankNumber l = true -> retained l = false.
Proof.
  intros l Hblank. unfold hasBlankNumber, numericColumns in Hblank.
  cbn [existsb fst snd] in Hblank.
  unfold retained, someIsNaN, lineEntry, raH, raM, raS, deDeg, deMin, deSec.
  cbn [bsn rightAscension declination magnitude existsb].
  repeat (apply orb_prop in Hblank as [Hblank|Hblank]); try discriminate;
    destruct (parse_blank _ Hblank) as [Hfloat Hint];
    rewrite ?Hfloat, ?Hint;
    rewrite ?div_nan_l, ?add_nan_l, ?add_nan_r, ?div_nan_l, ?mul_nan_l, ?mul_nan_r;
    rewrite ?add_nan_l, ?add_nan_r, ?div_nan_l, ?mul_nan_l, ?mul_nan_r;
    change (JS.isNaN nan) with true; now rewrite ?orb_true_r.
Qed.

Lemma split_not_nil : forall (sep : ascii) (s : string), JS.split sep s <> [].
Proof.
  intros sep [|c s]; simpl; [discriminate|].
  destruct (Ascii.eqb c sep); [discriminate|]. now destruct (JS.split sep s).
Qed.

(** The pieces of two texts joined by the separator are the pieces of the
    first followed by the pieces of the second. *)
Lemma split_append : forall (sep : ascii) (a b : string),
  JS.split sep (a ++ String sep b)%string = JS.split sep a ++ JS.split sep b.
Proof.
  intros sep a b. induction a as [|c a IH]; simpl.
  - now rewrite Ascii.eqb_refl.
  - destruct (Ascii.eqb c sep); [now rewrite IH|].
    rewrite IH. destruct (JS.split sep a) as [|piece rest] eqn:E; [|reflexivity].
    now apply split_not_nil in E.
Qed.

Lemma split_no_separator : forall (sep : ascii) (s : string),
  occurs sep s = false -> JS.split sep s = [s].
Proof.
  intros sep. induction s as [|c s IH]; simpl; [reflexivity|].
  intros H. apply orb_false_elim in H as [-> Hs]. now rewrite (IH Hs).
Qed.

Lemma parse_twoLines : forall a b : string,
  parse (twoLines a b) = parse a ++ parse b.
Proof.
  intros a b. unfold twoLines, lineFeed. rewrite !parse_filter, split_append.
  now rewrite filter_app, map_app.
Qed.

End LineFacts.

Import NaNFacts LineFacts.

(** X1. [parse] works line by line: the entries of two texts joined by a line
    feed are the entries of the first followed by the entries of the second,
    and a line feed at the end of the text adds no entry. *)
Theorem parse_line_by_line : forall a b : string,
  parse (twoLines a b) = parse a ++ parse b /\
  parse (a ++ String lineFeed EmptyString)%string = parse a.
Proof.
  intros a b. split; [apply parse_twoLines|].
  change (a ++ String lineFeed EmptyString)%string with (twoLines a EmptyString).
  rewrite parse_twoLines. apply app_nil_r.
Qed.

(** X2. A line one of whose numeric columns (catalog number, right
    ascension, declination, magnitude) is blank gives no entry, wherever it
    stands in the catalog: a blank column reads as [NaN], and [NaN] goes
    through the sums, quotients and products of the coordinates. *)
Theorem blank_number_line_skipped : forall a l b : string,
  occurs lineFeed l = false ->
  hasBlankNumber l = true ->
  retained l = false /\
  parse l = [] /\
  parse (twoLines a (twoLines l b)) = parse a ++ parse b.
Proof.
  intros a l b Hline Hblank.
  assert (Hskip : retained l = false) by now apply blank_number_skipped.
  assert (Hl : parse l = []).
  { rewrite ParseFacts.parse_filter. unfold lineFeed in Hline.
    rewrite (split_no_separator _ _ Hline). cbn [filter]. now rewrite Hskip. }
  repeat split; try assumption.
  now rewrite !parse_twoLines, Hl.
Qed.

Lemma blank_number_line_skipped_witness :
  retained (catalogLine "  92" "" (spaces 15) "" "") = false /\
  parse (catalogLine "  92" "" (spaces 15) "" "") = [] /\
  parse (twoLines sirius (twoLines (catalogLine "  92" "" (spaces 15) "" "") sirius))
  = parse sirius ++ parse sirius.
Proof.
  apply (blank_number_line_skipped sirius (catalogLine "  92" "" (spaces 15) "" "") sirius);
    vm_compute; reflexivity.
Defined.

(** X3. No entry of [parse] holds a [NaN]: its catalog number, right
    ascension, declination and magnitude are numbers ([render] is never
    handed a [NaN]). *)
Theorem parse_entries_are_numbers : forall (data : string) (e : starData float),
  In e (parse data) ->
  JS.isNaN (bsn e) = false /\ JS.isNaN (rightAscension e) = false /\
  JS.isNaN (declination e) = false /\ JS.isNaN (magnitude e) = false.
Proof.
  intros data e He. rewrite ParseFacts.parse_filter in He.
  apply in_map_iff in He as (l & <- & Hl). apply filter_In in Hl as [_ Hl].
  unfold retained, someIsNaN in Hl. cbn [existsb] in Hl.
  apply negb_true_iff in Hl.
  repeat (apply orb_false_elim in Hl as [? Hl]). now repeat split.
Qed.

Lemma parse_entries_are_numbers_witness :
  JS.isNaN (bsn (lineEntry sirius)) = false /\
  JS.isNaN (rightAscension (lineEntry sirius)) = false /\
  JS.isNaN (declination (lineEntry sirius)) = false /\
  JS.isNaN (magnitude (lineEntry sirius)) = false.
Proof.
  apply (parse_entries_are_numbers sirius (lineEntry sirius)).
  vm_compute. left. reflexivity.
Defined.

(** ** Lines and names *)

Module TrimFacts.

Lemma split_pieces : forall (sep : ascii) (s : string),
  Forall (fun piece => occurs sep piece = false) (JS.split sep s).
Proof.
  intros sep. induction s as [|c s IH]; simpl.
  - now repeat constructor.
  - destruct (Ascii.eqb c sep) eqn:E; [now constructor|].
    destruct (JS.split sep s) as [|piece rest].
    + repeat constructor. simpl. now rewrite E.
    + inversion IH as [|? ? Hpiece Hrest]; subst. constructor; [|assumption].
      simpl. now rewrite E.
Qed.

Lemma split_length : forall (sep : ascii) (s : string),
  List.length (JS.split sep s) = S (occurrences sep s).
Proof.
  intros sep. induction s as [|c s IH]; simpl; [reflexivity|].
  destruct (Ascii.eqb c sep); simpl; [now rewrite IH|].
  destruct (JS.split sep s); simpl in *; lia.
Qed.

Lemma split_join : forall (sep : ascii) (s : string),
  String.concat (String sep EmptyString) (JS.split sep s) = s.
Proof.
  intros sep. induction s as [|c s IH]; simpl; [reflexivity|].
  destruct (Ascii.eqb_spec c sep) as [->|Hc].
  - destruct (JS.split sep s) as [|piece rest] eqn:E.
    + now apply LineFacts.split_not_nil in E.
    + simpl. simpl in IH. now rewrite IH.
  - destruct (JS.split sep s) as [|piece rest] eqn:E.
    + now apply LineFacts.split_not_nil in E.
    + simpl in *. destruct rest; simpl in *; now rewrite IH.
Qed.

(** [trimStart] leaves a string that does not start with white space, and
    [trimEnd] one that does not end with it. *)
Lemma trimStart_startsBlank : forall s : string, startsBlank (JS.trimStart s) = false.
Proof.
  induction s as [|c s IH]; simpl; [reflexivity|].
  destruct (JS.isWhiteSpace c) eqn:E; [assumption|]. simpl. assumption.
Qed.

Lemma trimStart_id : forall s : string, startsBlank s = false -> JS.trimStart s = s.
Proof.
  intros [|c s]; simpl; [reflexivity|]. now intros ->.
Qed.

Lemma trimEnd_endsBlank : forall s : string, endsBlank (JS.trimEnd s) = false.
Proof.
  induction s as [|c s IH]; simpl; [reflexivity|].
  destruct (JS.trimEnd s) as [|c' t] eqn:E.
  - destruct (JS.isWhiteSpace c) eqn:Ec; simpl; [reflexivity|assumption].
  - simpl in *. assumption.
Qed.

Lemma trimEnd_id : forall s : string, endsBlank s = false -> JS.trimEnd s = s.
Proof.
  induction s as [|c s IH]; simpl; [reflexivity|].
  destruct s as [|c' s'].
  - simpl. now intros ->.
  - intros H. rewrite (IH H). reflexivity.
Qed.

Lemma trimEnd_startsBlank : forall s : string,
  startsBlank s = false -> startsBlank (JS.trimEnd s) = false.
Proof.
  intros [|c s]; simpl; [reflexivity|]. intros Hc.
  destruct (JS.trimEnd s); [rewrite Hc|]; simpl; auto.
Qed.

Lemma trim_clean : forall s : string,
  startsBlank (JS.trim s) = false /\ endsBlank (JS.trim s) = false.
Proof.
  intros s. unfold JS.trim. split.
  - apply trimEnd_startsBlank, trimStart_startsBlank.
  - apply trimEnd_endsBlank.
Qed.

Lemma trim_id : forall s : string,
  startsBlank s = false -> endsBlank s = false -> JS.trim s = s.
Proof.
  intros s Hs He. unfold JS.trim. rewrite (trimStart_id s Hs). now apply trimEnd_id.
Qed.

Lemma endsBlank_append : forall s t : string,
  t <> EmptyString -> endsBlank (s ++ t)%string = endsBlank t.
Proof.
  induction s as [|c s IH]; intros t Ht; simpl; [reflexivity|].
  rewrite (IH t Ht). destruct (s ++ t)%string eqn:E; [|reflexivity].
  destruct s; simpl in E; [now subst|discriminate].
Qed.

Lemma startsBlank_append : forall s t : string,
  s <> EmptyString -> startsBlank (s ++ t)%string = startsBlank s.
Proof.
  intros [|c s] t Hs; [now elim Hs|reflexivity].
Qed.

Lemma trimEnd_append_space : forall s : string,
  JS.trimEnd (s ++ " ")%string = JS.trimEnd s.
Proof.
  induction s as [|c s IH]; simpl; [reflexivity|]. now rewrite IH.
Qed.

End TrimFacts.

Import TrimFacts.

(** X4. The lines [parse] iterates over are one more than the line feeds of
    the text, none of them holds a line feed, and joined by line feeds they
    are the text again. *)
Theorem lines_of_text : forall data : string,
  List.length (JS.split lineFeed data) = S (occurrences lineFeed data) /\
  Forall (fun l => occurs lineFeed l = false) (JS.split lineFeed data) /\
  String.concat (String lineFeed EmptyString) (JS.split lineFeed data) = data.
Proof.
  intros data. split; [apply split_length|]. split; [apply split_pieces|apply split_join].
Qed.

(** X5. The name of an entry is made of the two trimmed name fields: the
    second one when the first is empty, the first one when the second is
    empty, and otherwise the first, one space and the second; it never starts
    or ends with white space. *)
Theorem entry_name : forall l : string,
  name (lineEntry l)
  = (if String.eqb (name1 l) EmptyString then name2 l
     else if String.eqb (name2 l) EmptyString then name1 l
     else name1 l ++ " " ++ name2 l)%string /\
  startsBlank (name (lineEntry l)) = false /\
  endsBlank (name (lineEntry l)) = false.
Proof.
  intros l. split; [|apply trim_clean].
  unfold lineEntry. cbn [name]. fold (name1 l). fold (name2 l).
  destruct (trim_clean (JS.substring l 4 13)) as [Hs1 He1].
  destruct (trim_clean (JS.substring l 14 25)) as [Hs2 He2].
  fold (name1 l) in Hs1, He1. fold (name2 l) in Hs2, He2.
  destruct (String.eqb_spec (name1 l) EmptyString) as [E1|N1].
  - rewrite E1. unfold JS.trim. cbn [append JS.trimStart JS.isWhiteSpace].
    change (JS.trimEnd (JS.trimStart (name2 l))) with (JS.trim (name2 l)).
    now apply trim_id.
  - destruct (String.eqb_spec (name2 l) EmptyString) as [E2|N2].
    + rewrite E2. unfold JS.trim.
      rewrite trimStart_id by now rewrite startsBlank_append.
      rewrite trimEnd_append_space. now apply trimEnd_id.
    + apply trim_id.
      * now rewrite startsBlank_append.
      * rewrite endsBlank_append by (destruct (name2 l); [now elim N2|discriminate]).
        rewrite (endsBlank_append " " (name2 l)) by assumption. assumption.
Qed.

(** ** The palette *)

Module PaletteFacts.

Lemma toUpperCaseChar_idempotent : forall c : ascii,
  JS.toUpperCaseChar (JS.toUpperCaseChar c) = JS.toUpperCaseChar c.
Proof.
  intros [[] [] [] [] [] [] [] []]; vm_compute; reflexivity.
Qed.

Lemma toUpperCase_idempotent : forall s : string,
  JS.toUpperCase (JS.toUpperCase s) = JS.toUpperCase s.
Proof.
  induction s as [|c s IH]; simpl; [reflexivity|].
  now rewrite toUpperCaseChar_idempotent, IH.
Qed.

End PaletteFacts.

(** X6. For every string, [spectralClassToColor] gives the color the table
    has for the class in upper case, every channel squared: white for
    whatever is none of the ten letters, the same color for a letter in lower
    case and in upper case, and in every case three channels in [0, 1]. *)
Theorem spectralClassToColor_table :
  forall (sin cos : float -> float) (exponentiate : float -> float -> float)
         (cls : string),
  spectralClassToColor (H := binary64 sin cos exponentiate) cls
  = tableColorSquared (JS.toUpperCase cls) /\
  (existsb (String.eqb (JS.toUpperCase cls)) starClasses = false ->
   spectralClassToColor (H := binary64 sin cos exponentiate) cls = (1, 1, 1)%float) /\
  spectralClassToColor (H := binary64 sin cos exponentiate) (JS.toUpperCase cls)
  = spectralClassToColor (H := binary64 sin cos exponentiate) cls /\
  colorInUnitInterval (spectralClassToColor (H := binary64 sin cos exponentiate) cls)
  = true.
Proof.
  intros sin cos exponentiate cls.
  assert (Htable : forall s : string,
    spectralClassToColor (H := binary64 sin cos exponentiate) s
    = tableColorSquared (JS.toUpperCase s)).
  { intros s. unfold spectralClassToColor, tableColorSquared, tableColor.
    cbn [existsb]. generalize (JS.toUpperCase s). intros upper.
    destruct (String.eqb upper "O"); [vm_compute; reflexivity|].
    destruct (String.eqb upper "W"); [vm_compute; reflexivity|].
    destruct (String.eqb upper "B"); [vm_compute; reflexivity|].
    destruct (String.eqb upper "A"); [vm_compute; reflexivity|].
    destruct (String.eqb upper "F"); [vm_compute; reflexivity|].
    destruct (String.eqb upper "G"); [vm_compute; reflexivity|].
    destruct (String.eqb upper "K"); [vm_compute; reflexivity|].
    destruct (String.eqb upper "M"); [vm_compute; reflexivity|].
    destruct (String.eqb upper "C"); [vm_compute; reflexivity|].
    destruct (String.eqb upper "S"); vm_compute; reflexivity. }
  split; [apply Htable|]. split; [|split].
  - intros Hnone. rewrite Htable. unfold tableColorSquared, tableColor, starClasses in *.
    cbn [existsb] in *.
    repeat (apply orb_false_elim in Hnone as [?E Hnone]).
    repeat match goal with E : String.eqb _ _ = false |- _ => rewrite E; clear E end.
    vm_compute. reflexivity.
  - now rewrite !Htable, PaletteFacts.toUpperCase_idempotent.
  - rewrite Htable. unfold tableColorSquared, tableColor. cbn [existsb].
    generalize (JS.toUpperCase cls). intros upper.
    repeat match goal with
           | |- context [String.eqb upper ?k] => destruct (String.eqb upper k)
           end; vm_compute; reflexivity.
Qed.

Lemma spectralClassToColor_table_witness :
  spectralClassToColor (H := binary64 (fun x => x) (fun x => x) (fun x _ => x)) "N"
  = (1, 1, 1)%float.
Proof.
  apply (proj1 (proj2 (spectralClassToColor_table
                         (fun x => x) (fun x => x) (fun x _ => x) "N"))).
  reflexivity.
Defined.

(** ** The document: what [createMaterials] and [render] add and leave *)

Module DocumentMore.

Import DocumentFacts.




Section Materials.

Context {T : Type} `{Number T}.




Lemma afterStars_scenes_nil : forall (palette : Dict nat) (acc : nat)
    (entries : list (starData T)) (doc : Document T),
  scenes doc = [] -> scenes (fold_left (afterStar palette acc) entries doc) = [].
Proof.
  induction entries as [|star entries IH]; intros doc Hs; cbn [fold_left]; [assumption|].
  apply IH. cbn [afterStar scenes]. now rewrite Hs.
Qed.

Lemma render_unfold_coords : forall (entries : list (starData T)) (palette : Dict nat)
    (doc : Document T),
  render entries palette doc
  = fold_left (afterStar palette (List.length (accessors doc))) entries
      (mkDocument (S (buffers doc)) (accessors doc ++ [mkAccessor "VEC3" octagonCoords])
                  (materials doc) (primitives doc) (meshes doc) (nodes doc) (scenes doc)).
Proof.
  intros entries palette [bf ac ma pr me no sn]. unfold render, renderState.
  cbn [createBuffer createAccessor fst snd buffers accessors materials primitives meshes
       nodes scenes].
  unfold withAccessors. doc_step.
  unfold setType, withAccessors. doc_step.
  unfold setArray, withAccessors. doc_step.
  match goal with
  | |- ?lhs = ?rhs =>
      match lhs with
      | context [fold_left ?f ?l ?st] => change (documentOf (fold_left f l st) = rhs)
      end
  end.
  apply render_fold.
Qed.

End Materials.

End DocumentMore.

Import DocumentFacts DocumentMore.



(** X8. On any document and for any palette, [render] adds one buffer, one
    [VEC3] accessor holding the 30 coordinates of the octagon, and for each
    entry one primitive (a triangle fan, mode 6, over that accessor), one mesh
    and one node; the nodes become children of the first scene, in order, if
    the document has a scene; the materials and every object the document
    already had are left as they were.  With no entry, no primitive, mesh or
    node is added. *)
Theorem render_on_any_document : forall (T : Type) (N : Number T)
    (entries : list (starData T)) (palette : Dict nat) (doc : Document T),
  buffers (render entries palette doc) = S (buffers doc) /\
  accessors (render entries palette doc)
  = accessors doc ++ [mkAccessor "VEC3" octagonCoords] /\
  List.length (octagonCoords (T := T)) = 30%nat /\
  materials (render entries palette doc) = materials doc /\
  primitives (render entries palette doc)
  = primitives doc
    ++ map (fun e => mkPrimitive [("POSITION", List.length (accessors doc))]
                                 (paletteLookup palette (propertyKey (spectralClass e))) 6)
           entries /\
  meshes (render entries palette doc)
  = meshes doc
    ++ map (fun i => mkMesh [i]) (seq (List.length (primitives doc)) (List.length entries)) /\
  (exists new : list (Node T),
     nodes (render entries palette doc) = nodes doc ++ new /\
     List.length new = List.length entries /\
     map nodeMesh new
     = map Some (seq (List.length (meshes doc)) (List.length entries))) /\
  scenes (render entries palette doc)
  = match scenes doc with
    | [] => []
    | scene :: others =>
        mkScene (children scene ++ seq (List.length (nodes doc)) (List.length entries))
        :: others
    end.
Proof.
  intros T N entries palette doc. rewrite render_unfold_coords.
  match goal with |- context [fold_left ?f entries ?d] =>
    pose proof (afterStars_fixed palette (List.length (accessors doc)) entries d) as Hfix;
    pose proof (afterStars_primitives palette (List.length (accessors doc)) entries d) as Hp;
    pose proof (afterStars_meshes palette (List.length (accessors doc)) entries d) as Hm;
    pose proof (afterStars_nodes palette (List.length (accessors doc)) entries d) as Hn;
    pose proof (afterStars_scenes palette (List.length (accessors doc)) entries d) as Hs;
    pose proof (afterStars_scenes_nil palette (List.length (accessors doc)) entries d) as Hs0
  end.
  cbv zeta in Hfix. destruct Hfix as (Hb & Ha & Hmat).
  cbn [buffers accessors materials primitives meshes nodes scenes] in *.
  rewrite Hb, Ha, Hmat, Hp, Hm, Hn.
  split; [reflexivity|]. split; [reflexivity|]. split; [reflexivity|].
  split; [reflexivity|]. split; [reflexivity|]. split; [reflexivity|]. split.
  - eexists. split; [reflexivity|]. split.
    + now rewrite length_map, length_combine, length_seq, Nat.min_id.
    + rewrite (starNodes_map _ nodeMesh (fun i _ => Some i))
        by (intros; apply starNode_parts).
      apply (map_fst_combine_seq _ _ (@Some nat)).
  - destruct (scenes doc) as [|scene others].
    + now apply Hs0.
    + now apply Hs.
Qed.

(** X9. From the text of the catalog to the document: [main] gives the scene
    one child per line that [parse] keeps, as many as there are lines less
    the lines with a [NaN], and the node of the i-th kept line carries that
    line's magnitude, catalog number and name. *)
Theorem main_nodes_of_lines :
  forall (sin cos : float -> float) (exponentiate : float -> float -> float)
         (data : string),
  map children (scenes (main sin cos exponentiate data))
  = [seq 0 (List.length (filter retained (JS.split lineFeed data)))] /\
  List.length (nodes (main sin cos exponentiate data))
  = (List.length (JS.split lineFeed data)
     - List.length (filter (fun l => negb (retained l)) (JS.split lineFeed data)))%nat /\
  map nodeExtras (nodes (main sin cos exponentiate data))
  = map (fun l => Some (mkNodeExtras (magnitude (lineEntry l)) (bsn (lineEntry l))
                                     (name (lineEntry l))))
        (filter retained (JS.split lineFeed data)) /\
  map nodeTransform (nodes (main sin cos exponentiate data))
  = map (fun l => computeTransform (H := binary64 sin cos exponentiate)
                    (rightAscension (lineEntry l)) (declination (lineEntry l))
                    (magnitude (lineEntry l)))
        (filter retained (JS.split lineFeed data)).
Proof.
  intros sin cos exponentiate data. unfold main, lineFeed.
  pose proof (ParseFacts.parse_filter data) as Hparse.
  destruct (assemble_parts (H := binary64 sin cos exponentiate) (parse data))
    as (_ & _ & _ & _ & Hn & Hs).
  rewrite Hn, Hs. split; [|split; [|split]].
  - cbn [map children]. now rewrite Hparse, length_map.
  - rewrite length_map, length_combine, length_seq, Nat.min_id, Hparse, length_map.
    pose proof (ParseFacts.filter_partition_length string retained (JS.split "010" data)).
    lia.
  - rewrite (starNodes_map _ nodeExtras
               (fun _ e => Some (mkNodeExtras (magnitude e) (bsn e) (name e))))
      by (intros; apply starNode_parts).
    rewrite (map_snd_combine_seq _ _
               (fun e => Some (mkNodeExtras (magnitude e) (bsn e) (name e)))).
    now rewrite Hparse, map_map.
  - rewrite (starNodes_map _ nodeTransform
               (fun _ e => computeTransform (H := binary64 sin cos exponentiate)
                             (rightAscension e) (declination e) (magnitude e)))
      by (intros; apply starNode_parts).
    rewrite (map_snd_combine_seq _ _
               (fun e => computeTransform (H := binary64 sin cos exponentiate)
                           (rightAscension e) (declination e) (magnitude e))).
    now rewrite Hparse, map_map.
Qed.

(** ** Exact arithmetic: the rotation and the scale of a node *)

Module RotationFacts.

Local Open Scope R_scope.

(** Four numbers within [1/200] of the components of a unit quaternion have a
    norm between 0.989 and 1.01. *)
Lemma rounded_unit_quaternion : forall qx qy qz qw tx ty tz tw : R,
  qx * qx + qy * qy + qz * qz + qw * qw = 1 ->
  Rabs (tx - qx) <= / 200 -> Rabs (ty - qy) <= / 200 ->
  Rabs (tz - qz) <= / 200 -> Rabs (tw - qw) <= / 200 ->
  989 / 1000 <= sqrt (tx * tx + ty * ty + tz * tz + tw * tw) <= 101 / 100.
Proof.
  intros qx qy qz qw tx ty tz tw Hunit Hx Hy Hz Hw.
  apply GeometryFacts.Rabs_bound in Hx, Hy, Hz, Hw.
  set (dx := tx - qx) in *. set (dy := ty - qy) in *.
  set (dz := tz - qz) in *. set (dw := tw - qw) in *.
  set (s := qx * dx + qy * dy + qz * dz + qw * dw).
  set (D := dx * dx + dy * dy + dz * dz + dw * dw).
  assert (HD : 0 <= D <= / 10000) by (unfold D; split; nra).
  assert (Hcs : s * s <= D).
  { assert (Hlag : D - s * s
                   = (qx * dy - qy * dx) ^ 2 + (qx * dz - qz * dx) ^ 2
                     + (qx * dw - qw * dx) ^ 2 + (qy * dz - qz * dy) ^ 2
                     + (qy * dw - qw * dy) ^ 2 + (qz * dw - qw * dz) ^ 2).
    { replace D with ((qx * qx + qy * qy + qz * qz + qw * qw) * D) by (rewrite Hunit; ring).
      unfold D, s. ring. }
    assert (0 <= D - s * s); [|lra].
    rewrite Hlag.
    repeat apply Rplus_le_le_0_compat; apply pow2_ge_0. }
  assert (Hs : - / 100 <= s <= / 100) by (split; nra).
  assert (Hsum : tx * tx + ty * ty + tz * tz + tw * tw = 1 + 2 * s + D).
  { unfold s, D, dx, dy, dz, dw. rewrite <- Hunit. ring. }
  rewrite Hsum. split.
  - rewrite <- (sqrt_square (989 / 1000)) by lra. apply sqrt_le_1_alt. lra.
  - rewrite <- (sqrt_square (101 / 100)) by lra. apply sqrt_le_1_alt. lra.
Qed.

End RotationFacts.

(** X10. In exact arithmetic, the rotation of a node is the composed
    rotation [q] with every component rounded to two decimals; no component
    moves by more than 0.005, and the rounded rotation, which is not
    normalized again, has a norm between 0.989 and 1.01. *)
Theorem rotation_near_unit : forall ra de mag : R,
  let q := starRotation (H := exact) ra de in
  let r := fst (fst (computeTransform (H := exact) ra de mag)) in
  r = (roundDecimals (qx q) 2, roundDecimals (qy q) 2,
       roundDecimals (qz q) 2, roundDecimals (qw q) 2) /\
  (Rabs (roundDecimals (qx q) 2 - qx q) <= 5 / 1000 /\
   Rabs (roundDecimals (qy q) 2 - qy q) <= 5 / 1000 /\
   Rabs (roundDecimals (qz q) 2 - qz q) <= 5 / 1000 /\
   Rabs (roundDecimals (qw q) 2 - qw q) <= 5 / 1000)%R /\
  (989 / 1000
   <= sqrt (roundDecimals (qx q) 2 * roundDecimals (qx q) 2
            + roundDecimals (qy q) 2 * roundDecimals (qy q) 2
            + roundDecimals (qz q) 2 * roundDecimals (qz q) 2
            + roundDecimals (qw q) 2 * roundDecimals (qw q) 2)
   <= 101 / 100)%R.
Proof.
  intros ra de mag. cbv zeta. split; [reflexivity|].
  assert (Herr : forall x : R, (Rabs (roundDecimals x 2 - x) <= / 200)%R).
  { intros x. eapply Rle_trans; [apply GeometryFacts.roundDecimals_error|]. simpl. lra. }
  split.
  - repeat split; (eapply Rle_trans; [apply Herr|lra]).
  - apply (RotationFacts.rounded_unit_quaternion _ _ _ _ _ _ _ _
             (GeometryFacts.starRotation_unit ra de)); apply Herr.
Qed.

(** X11. In exact arithmetic, the scale is positive, it is [1/15] at
    magnitude 6, and it grows by the factor [4 ^ (d / 4)] when the magnitude
    drops by [d]: four times as large for a star four magnitudes brighter. *)
Theorem scale_law : forall m d : R,
  (0 < starScale (H := exact) m)%R /\
  starScale (H := exact) 6%R = (/ 15)%R /\
  starScale (H := exact) (m - d)%R = (Rpower 4 (d / 4) * starScale (H := exact) m)%R /\
  starScale (H := exact) (m - 4)%R = (4 * starScale (H := exact) m)%R.
Proof.
  intros m d.
  assert (Hscale : forall x : R,
            starScale (H := exact) x = (Rpower 4 ((6 - x) / 4) / 15)%R).
  { intros x. unfold starScale. rewrite !GeometryFacts.int_exact. reflexivity. }
  assert (Hshift : forall x y : R,
            starScale (H := exact) (x - y)%R
            = (Rpower 4 (y / 4) * starScale (H := exact) x)%R).
  { intros x y. rewrite !Hscale.
    replace ((6 - (x - y)) / 4)%R with (y / 4 + (6 - x) / 4)%R by field.
    rewrite Rpower_plus. field. }
  rewrite !Hscale in *. split; [|split; [|split]].
  - apply Rdiv_lt_0_compat; [apply exp_pos|lra].
  - replace ((6 - 6) / 4)%R with 0%R by field. rewrite Rpower_O by lra. field.
  - rewrite <- !Hscale. apply Hshift.
  - rewrite <- !Hscale. rewrite Hshift.
    replace (4 / 4)%R with 1%R by field. now rewrite Rpower_1 by lra.
Qed.

(** ** The program around the core *)

Module ProgramFacts.

Import Program.

Lemma parseArray_length : forall data : string,
  List.length (parseArray data) = List.length (filter retained (JS.split lineFeed data)).
Proof.
  intros data. rewrite ParseFacts.parseArray_dense. now rewrite !length_map.
Qed.

Lemma acquire_present : forall (env : Environment) (w : World) (text : string),
  dict_get (files w) filename = Some text -> acquire env w = (Some tt, w).
Proof.
  intros env w text Hfile.
  unfold acquire, bind, uncompressedInputfileExists, fileExists. now rewrite Hfile.
Qed.

Lemma acquire_absent : forall (env : Environment) (w : World),
  dict_get (files w) filename = None ->
  dict_get (files w) filenameCompressed = None ->
  acquire env w
  = match fetch env url with
    | FetchRejects =>
        (None, mkWorld (files w) (console w ++ ["Downloading BSC5 database..."]))
    | FetchNoBody =>
        (Some tt, mkWorld (files w) (console w ++ ["Downloading BSC5 database..."]))
    | FetchBody body =>
        uncompress env
          (mkWorld (dict_set (files w) filenameCompressed body)
                   (console w ++ ["Downloading BSC5 database..."]))
    end.
Proof.
  intros env w Hnone Hgz.
  unfold acquire, bind, uncompressedInputfileExists, compressedInputfileExists,
    fileExists, ret.
  rewrite Hnone, Hgz.
  unfold download, bind, console_log. cbn [files console].
  destruct (fetch env url) as [| |body]; try reflexivity.
  unfold pipeToFile, ret, overwrite. cbn [files console]. now rewrite Hgz.
Qed.

End ProgramFacts.

(** X12. When [bsc5.dat] is on disk, [main] completes without downloading or
    uncompressing anything, whatever the network and [gunzip] would do: its
    only change to the files is [starfield.glb], the serialized document of
    the entries of the catalog's text, and its only line on the console is
    the count of these entries. *)
Theorem main_with_catalog : forall (env : Program.Environment) (w : Program.World)
    (text : string),
  dict_get (Program.files w) Program.filename = Some text ->
  Program.main env w
  = (Some tt,
     Program.mkWorld
       (dict_set (Program.files w) "starfield.glb"
          (Program.writeBinary env
             (main (Program.sin env) (Program.cos env) (Program.exponentiate env) text)))
       (Program.console w
        ++ [("Converted "
             ++ Program.numeral (List.length (filter retained (JS.split lineFeed text)))
             ++ " entries.")%string])).
Proof.
  intros env w text Hfile. unfold Program.main, Program.bind.
  rewrite (ProgramFacts.acquire_present env w text Hfile).
  unfold Program.readTextFileSync. rewrite Hfile.
  unfold Program.writeFileSync, Program.console_log. cbn [Program.files Program.console].
  rewrite ProgramFacts.parseArray_length. unfold main, parse. reflexivity.
Qed.

Lemma main_with_catalog_witness :
  fst (Program.main Program.offline (Program.mkWorld [("bsc5.dat", sirius)] []))
  = Some tt.
Proof.
  exact (f_equal fst
           (main_with_catalog Program.offline
              (Program.mkWorld [("bsc5.dat", sirius)] []) sirius eq_refl)).
Defined.

(** X13. How [main] gets the catalog when [bsc5.dat] is not on disk.  When
    [bsc5.dat.gz] is there, nothing is fetched and [gunzip -q -f bsc5.dat.gz]
    is run.  When it is not there either, the archive is fetched: a response
    with a body is written to [bsc5.dat.gz] and [gunzip] is run; a response
    without a body leaves the files as they are and runs nothing; a fetch
    that rejects ends [main]. *)
Theorem acquire_cases : forall (env : Program.Environment) (w : Program.World),
  dict_get (Program.files w) Program.filename = None ->
  (forall archive : string,
     dict_get (Program.files w) Program.filenameCompressed = Some archive ->
     Program.acquire env w = Program.uncompress env w) /\
  (dict_get (Program.files w) Program.filenameCompressed = None ->
   Program.acquire env w
   = match Program.fetch env Program.url with
     | Program.FetchRejects =>
         (None,
          Program.mkWorld (Program.files w)
                          (Program.console w ++ ["Downloading BSC5 database..."]))
     | Program.FetchNoBody =>
         (Some tt,
          Program.mkWorld (Program.files w)
                          (Program.console w ++ ["Downloading BSC5 database..."]))
     | Program.FetchBody body =>
         Program.uncompress env
           (Program.mkWorld
              (dict_set (Program.files w) Program.filenameCompressed body)
              (Program.console w ++ ["Downloading BSC5 database..."]))
     end) /\
  (forall w' : Program.World,
     Program.uncompress env w'
     = match Program.run env ["gunzip"; "-q"; "-f"; "bsc5.dat.gz"] (Program.files w') with
       | Some files' =>
           (Some tt,
            Program.mkWorld files'
              (Program.console w' ++ ["Uncompressing BSC5 database..."]))
       | None =>
           (None,
            Program.mkWorld (Program.files w')
              (Program.console w' ++ ["Uncompressing BSC5 database..."]))
       end).
Proof.
  intros env w Hnone. split; [|split].
  - intros archive Hgz.
    unfold Program.acquire, Program.bind, Program.uncompressedInputfileExists,
      Program.compressedInputfileExists, Program.fileExists, Program.ret.
    now rewrite Hnone, Hgz.
  - intros Hgz. now apply ProgramFacts.acquire_absent.
  - intros w'. unfold Program.uncompress, Program.bind, Program.console_log.
    cbn [Program.files Program.console].
    now destruct (Program.run env _ (Program.files w')).
Qed.

Lemma acquire_cases_witness :
  Program.acquire Program.offline (Program.mkWorld [] [])
  = (Some tt, Program.mkWorld [] ["Downloading BSC5 database..."]).
Proof.
  apply (proj1 (proj2 (acquire_cases Program.offline (Program.mkWorld [] []) eq_refl))).
  reflexivity.
Defined.

(** X14. [main] writes [starfield.glb] only if it can read [bsc5.dat] once
    the catalog has been acquired: when the file is still missing then, [main]
    ends by throwing, and the files and the console are the ones the
    acquisition left.  So with neither file on disk and a response without a
    body, [main] throws and no file is created or changed. *)
Theorem main_without_catalog : forall (env : Program.Environment) (w w1 : Program.World),
  Program.acquire env w = (Some tt, w1) ->
  dict_get (Program.files w1) Program.filename = None ->
  Program.main env w = (None, w1) /\
  (dict_get (Program.files w) Program.filename = None ->
   dict_get (Program.files w) Program.filenameCompressed = None ->
   Program.fetch env Program.url = Program.FetchNoBody ->
   Program.files w1 = Program.files w).
Proof.
  intros env w w1 Hacq Hmissing. split.
  - unfold Program.main, Program.bind. rewrite Hacq.
    unfold Program.readTextFileSync. now rewrite Hmissing.
  - intros Hnone Hgz Hfetch.
    rewrite (ProgramFacts.acquire_absent env w Hnone Hgz), Hfetch in Hacq.
    now inversion Hacq.
Qed.

Lemma main_without_catalog_witness :
  Program.main Program.offline (Program.mkWorld [] [])
  = (None, Program.mkWorld [] ["Downloading BSC5 database..."]).
Proof.
  apply (proj1 (main_without_catalog Program.offline (Program.mkWorld [] [])
                  (Program.mkWorld [] ["Downloading BSC5 database..."])
                  eq_refl eq_refl)).
Defined.
